(** * als: logging and timing utilities, the application data store and the
      image value object

    A shallow embedding of [src/als/code_utilities.py] and [src/als/model.py].

    Python code that logs, reads the clock, mutates the store or raises is
    written in a state-and-exception monad over a [World]: the log records
    emitted so far, the wall clock, and a heap holding the objects the code
    mutates.  Floats are the kernel's binary64 numbers, so [time()] readings
    and [(end - start) * 1000] are computed as Python computes them.

    The code is embedded twice.  In [code_utilities] and [model], [str(x)]
    always gives a text and an observer's update reads the store and acts on
    surroundings of its own: the use the data store is written for.  In
    [live], [str(x)] can raise and an update is any code, which can call
    back into the store while the pass walks the list.  For observers that
    print and keep to themselves the two agree
    ([live_is_model_for_observers_that_keep_to_themselves]). *)

From Stdlib Require Import ZArith List String Ascii Bool Lia Floats DecimalString.
Import ListNotations.
Local Open Scope string_scope.

(** ** Python values shared by both modules *)

(** A raised exception: its class name and its payload. *)
Record exn : Type := Exn { exn_type : string; exn_args : string }.

(** How a call ends: it returns a value or it raises. *)
Inductive outcome (A : Type) : Type :=
| Returned (a : A)
| Raised (e : exn).
Arguments Returned {A} a.
Arguments Raised {A} e.

(** [str(x)], the only capability the logging code needs of a value. *)
Class PyStr (A : Type) : Type := str : A -> string.

#[export] Instance str_bool : PyStr bool := fun b => if b then "True" else "False".
#[export] Instance str_None : PyStr unit := fun _ => "None".
#[export] Instance str_str : PyStr string := fun s => s.

(** [str(n)] of a non-negative integer. *)
Definition decimal (n : Z) : string := NilZero.string_of_uint (N.to_uint (Z.to_N n)).

#[export] Instance str_int : PyStr nat := fun n => decimal (Z.of_nat n).

Definition newline : string := String (ascii_of_nat 10) EmptyString.

Declare Scope py_scope.
Delimit Scope py_scope with py.

(** ** code_utilities.py *)
Module code_utilities.

(** One record handed to the [logging] module. *)
Record LogRecord : Type := { name : string; levelname : string; msg : string }.

Section Runtime.
Context {H : Type}.

(** What running code can read and change: the heap [H] of mutable
    objects, the records logged so far, and the clock, whose [k]-th
    reading is [clock k]. *)
Record World : Type :=
  { heap : H; records : list LogRecord; clock : nat -> float; ticks : nat }.

Definition M (A : Type) : Type := World -> outcome A * World.

Definition ret {A} (a : A) : M A := fun w => (Returned a, w).

Definition raise {A} (e : exn) : M A := fun w => (Raised e, w).

(** Sequencing: a raise skips everything that follows. *)
Definition bind {A B} (m : M A) (k : A -> M B) : M B :=
  fun w =>
    match m w with
    | (Returned a, w') => k a w'
    | (Raised e, w') => (Raised e, w')
    end.

(** [time.time()] : the next clock reading. *)
Definition time : M float :=
  fun w => (Returned (clock w (ticks w)),
            {| heap := heap w; records := records w;
               clock := clock w; ticks := S (ticks w) |}).

(** [logging.getLogger(name).debug(msg)]. *)
Definition logger_debug (logger : string) (m : string) : M unit :=
  fun w => (Returned tt,
            {| heap := heap w;
               records := records w ++ [{| name := logger; levelname := "DEBUG"; msg := m |}];
               clock := clock w; ticks := ticks w |}).

(** Reading and replacing the heap. *)
Definition get_heap : M H := fun w => (Returned (heap w), w).

Definition put_heap (h : H) : M unit :=
  fun w => (Returned tt,
            {| heap := h; records := records w; clock := clock w; ticks := ticks w |}).
End Runtime.

Arguments World H : clear implicits.
Arguments M H A : clear implicits.

Notation "x <- c1 ;; c2" := (bind c1 (fun x => c2))
  (at level 100, c1 at next level, right associativity) : py_scope.
Notation "c1 ;; c2" := (bind c1 (fun _ => c2))
  (at level 100, right associativity) : py_scope.

(** *** Fixed-point formatting, ["%0.3f" % x] and [f"{x:0.3f}"] *)

(** [n / d] rounded to the nearest integer, a tie going to the even one
    ([n >= 0], [d > 0]). *)
Definition round_half_even (n d : Z) : Z :=
  let q := (n / d)%Z in
  let r := (n mod d)%Z in
  if (2 * r <? d)%Z then q
  else if (d <? 2 * r)%Z then (q + 1)%Z
  else if Z.even q then q else (q + 1)%Z.

(** The number of thousandths printed for the magnitude [m * 2^e]. *)
Definition thousandths (m : positive) (e : Z) : Z :=
  if (0 <=? e)%Z then (Z.pos m * 1000 * 2 ^ e)%Z
  else round_half_even (Z.pos m * 1000) (2 ^ (- e)).

Definition digit (n : Z) : ascii := ascii_of_nat (48 + Z.to_nat n).

Definition three_digits (n : Z) : string :=
  String (digit (n / 100)) (String (digit (n / 10 mod 10)) (String (digit (n mod 10)) EmptyString)).

(** Sign, integer part, point, three decimals. *)
Definition fixed3 (negative : bool) (n : Z) : string :=
  (if negative then "-" else EmptyString) ++ decimal (n / 1000) ++ "." ++ three_digits (n mod 1000).

Definition format_0_3f (x : float) : string :=
  match Prim2SF x with
  | S754_nan => "nan"
  | S754_infinity false => "inf"
  | S754_infinity true => "-inf"
  | S754_zero s => fixed3 s 0
  | S754_finite s m e => fixed3 s (thousandths m e)
  end.

(** *** The [log] decorator *)

Section Log.
Context {H Args Kwargs Val : Type}.
Context {str_args : PyStr Args} {str_kwargs : PyStr Kwargs} {str_val : PyStr Val}.

(** A function object: the two attributes [log] reads, and its body. *)
Record PyFunction : Type :=
  def { __qualname__ : string;
        __module__ : string;
        __call__ : Args -> Kwargs -> M H Val }.

Definition called_message (function_name : string) (args : Args) (kwargs : Kwargs) : string :=
  function_name ++ "() called with : " ++ str args ++ " - " ++ str kwargs.

Definition returned_message (function_name : string) (result : Val)
           (start_time end_time : float) : string :=
  function_name ++ "() returned " ++ str result ++ " in "
    ++ format_0_3f ((end_time - start_time) * 1000)%float ++ " ms".

Definition wrapped (func : PyFunction) (args : Args) (kwargs : Kwargs) : M H Val :=
  (let function_name := __qualname__ func in
   let logger := __module__ func in
   logger_debug logger (called_message function_name args kwargs) ;;
   start_time <- time ;;
   result <- __call__ func args kwargs ;;
   end_time <- time ;;
   logger_debug logger (returned_message function_name result start_time end_time) ;;
   ret result)%py.

(** [@wraps(func)] copies the name and module of [func] onto [wrapped]. *)
Definition log (func : PyFunction) : PyFunction :=
  {| __qualname__ := __qualname__ func;
     __module__ := __module__ func;
     __call__ := wrapped func |}.

(** The world in which [wrapped] hands over to [func]: the "called" record
    is out and the start time is read. *)
Definition at_call (func : PyFunction) (args : Args) (kwargs : Kwargs) (w : World H) : World H :=
  snd ((logger_debug (__module__ func) (called_message (__qualname__ func) args kwargs) ;;
        time)%py w).

(** The world [wrapped] leaves when [func] has returned [result] in [w']:
    the end time is read and the "returned" record is out. *)
Definition at_return (func : PyFunction) (result : Val) (start_time : float) (w' : World H)
  : World H :=
  snd ((end_time <- time ;;
        logger_debug (__module__ func)
          (returned_message (__qualname__ func) result start_time end_time))%py w').
End Log.

Arguments PyFunction H Args Kwargs Val : clear implicits.

(** *** The [Timer] context manager *)

(** The attributes of a [Timer]; each is absent until it is first assigned. *)
Record Timer : Type :=
  { start : option float;
    end_ : option float;
    elapsed_in_milli : option float;
    elapsed_in_milli_as_str : option string }.

Definition Timer_new : Timer :=
  {| start := None; end_ := None; elapsed_in_milli := None; elapsed_in_milli_as_str := None |}.

Definition AttributeError (attr : string) : exn :=
  Exn "AttributeError" ("'Timer' object has no attribute '" ++ attr ++ "'").

Section TimerMethods.
Context {H : Type}.

Definition __enter__ (self : Timer) : M H Timer :=
  (t <- time ;;
   ret {| start := Some t; end_ := end_ self;
          elapsed_in_milli := elapsed_in_milli self;
          elapsed_in_milli_as_str := elapsed_in_milli_as_str self |})%py.

Definition __exit__ (self : Timer) : M H Timer :=
  (t <- time ;;
   match start self with
   | None => raise (AttributeError "start")
   | Some s =>
       let elapsed := ((t - s) * 1000)%float in
       ret {| start := Some s; end_ := Some t;
              elapsed_in_milli := Some elapsed;
              elapsed_in_milli_as_str := Some (format_0_3f elapsed) |}
   end)%py.

(** [with Timer() as t: body].  [__exit__] runs whether [body] returns or
    raises; it returns [None], so a failure of [body] is raised again
    once it is done.  The timer is returned next to the outcome, as the
    code after the block still holds it. *)
Definition with_Timer {A} (body : Timer -> M H A) (w : World H)
  : outcome A * Timer * World H :=
  match __enter__ Timer_new w with
  | (Raised e, w1) => (Raised e, Timer_new, w1)
  | (Returned t, w1) =>
      let '(r, w2) := body t w1 in
      match __exit__ t w2 with
      | (Returned t', w3) => (r, t', w3)
      | (Raised e, w3) => (Raised e, t, w3)
      end
  end.
End TimerMethods.

(** [AlsException]: a message and a details payload, both required. *)
Record AlsException (Details : Type) : Type :=
  { message : string; details : Details }.

End code_utilities.


(** ** model.py *)
Module model.
Import code_utilities.

(** *** DataStore *)

(** The attributes of a [DataStore].  [_observers] is a Python list:
    registration order is kept and an observer may be in it several times. *)
Record DataStore (Observer : Type) : Type :=
  { _observers : list Observer;
    _scan_in_progress : bool;
    _web_server_is_running : bool }.
Arguments _observers {Observer} d.
Arguments _scan_in_progress {Observer} d.
Arguments _web_server_is_running {Observer} d.

(** What the store needs of the objects registered with it: they can be
    compared (as [list.remove] does), printed, and told to update.  An
    update reads the store and acts on the observer's own surroundings
    [Env]; it returns or raises.  Observers do not call back into the store
    while they are being notified. *)
Class Collaborators (Observer Env : Type) : Type :=
  { observer_eq_dec : forall x y : Observer, {x = y} + {x <> y};
    update_according_to_app_state :
      Observer -> DataStore Observer -> Env -> outcome unit * Env;
    repr_observer : Observer -> string;
    repr_store : string }.

(** The positional arguments of a method call start with the store itself;
    no method of the store is called with keyword arguments. *)
Inductive Self : Type := self.
Inductive NoKwargs : Type := no_kwargs.

#[export] Instance str_no_kwargs : PyStr NoKwargs := fun _ => "{}".

Section Store.
Context {Observer Env : Type} {collaborators : Collaborators Observer Env}.

(** The objects the store's methods can reach: the store, the observers'
    surroundings, and the sequence of observers told to update so far (kept
    for the specification only; no code reads it). *)
Record Heap : Type :=
  { STORE : DataStore Observer;
    surroundings : Env;
    notified : list Observer }.

#[local] Instance str_args_self : PyStr Self :=
  fun _ => "(" ++ repr_store ++ ",)".
#[local] Instance str_args_self_bool : PyStr (Self * bool) :=
  fun a => "(" ++ repr_store ++ ", " ++ str (snd a) ++ ")".
#[local] Instance str_args_self_observer : PyStr (Self * Observer) :=
  fun a => "(" ++ repr_store ++ ", " ++ repr_observer (snd a) ++ ")".

(** [DataStore()] *)
Definition DataStore_new : DataStore Observer :=
  {| _observers := []; _scan_in_progress := false; _web_server_is_running := false |}.

(** An assignment to, or an in-place change of, the store's attributes. *)
Definition update_store (f : DataStore Observer -> DataStore Observer) : M Heap unit :=
  (h <- get_heap ;;
   put_heap {| STORE := f (STORE h); surroundings := surroundings h; notified := notified h |})%py.

(** [observer.update_according_to_app_state()] *)
Definition call_update (observer : Observer) : M Heap unit :=
  fun w =>
    let h := heap w in
    let '(r, env') := update_according_to_app_state observer (STORE h) (surroundings h) in
    (r, {| heap := {| STORE := STORE h; surroundings := env';
                      notified := notified h ++ [observer] |};
           records := records w; clock := clock w; ticks := ticks w |}).

(** [for observer in observers: observer.update_according_to_app_state()] *)
Fixpoint for_observer_in (observers : list Observer) : M Heap unit :=
  match observers with
  | [] => ret tt
  | observer :: rest => (call_update observer ;; for_observer_in rest)%py
  end.

Definition _notify_observers : PyFunction Heap Self NoKwargs unit :=
  log {| __qualname__ := "DataStore._notify_observers";
         __module__ := "als.model";
         __call__ := fun _ _ =>
           (h <- get_heap ;; for_observer_in (_observers (STORE h)))%py |}.

Definition web_server_is_running_fget : PyFunction Heap Self NoKwargs bool :=
  log {| __qualname__ := "DataStore.web_server_is_running";
         __module__ := "als.model";
         __call__ := fun _ _ =>
           (h <- get_heap ;; ret (_web_server_is_running (STORE h)))%py |}.

Definition web_server_is_running_fset : PyFunction Heap (Self * bool) NoKwargs unit :=
  log {| __qualname__ := "DataStore.web_server_is_running";
         __module__ := "als.model";
         __call__ := fun a _ =>
           let running := snd a in
           (update_store (fun s => {| _observers := _observers s;
                                      _scan_in_progress := _scan_in_progress s;
                                      _web_server_is_running := running |}) ;;
            __call__ _notify_observers self no_kwargs)%py |}.

Definition scan_in_progress_fget : PyFunction Heap Self NoKwargs bool :=
  log {| __qualname__ := "DataStore.scan_in_progress";
         __module__ := "als.model";
         __call__ := fun _ _ =>
           (h <- get_heap ;; ret (_scan_in_progress (STORE h)))%py |}.

Definition scan_in_progress_fset : PyFunction Heap (Self * bool) NoKwargs unit :=
  log {| __qualname__ := "DataStore.scan_in_progress";
         __module__ := "als.model";
         __call__ := fun a _ =>
           let in_progress := snd a in
           (update_store (fun s => {| _observers := _observers s;
                                      _scan_in_progress := in_progress;
                                      _web_server_is_running := _web_server_is_running s |}) ;;
            __call__ _notify_observers self no_kwargs)%py |}.

Definition add_observer_def : PyFunction Heap (Self * Observer) NoKwargs unit :=
  log {| __qualname__ := "DataStore.add_observer";
         __module__ := "als.model";
         __call__ := fun a _ =>
           let observer := snd a in
           update_store (fun s => {| _observers := _observers s ++ [observer];
                                     _scan_in_progress := _scan_in_progress s;
                                     _web_server_is_running := _web_server_is_running s |}) |}.

(** [list.remove(x)]: the list without its first item equal to [x], or
    nothing when no item is. *)
Fixpoint list_remove (x : Observer) (l : list Observer) : option (list Observer) :=
  match l with
  | [] => None
  | y :: rest =>
      if observer_eq_dec y x then Some rest
      else option_map (cons y) (list_remove x rest)
  end.

Definition ValueError : exn := Exn "ValueError" "list.remove(x): x not in list".

Definition remove_observer_def : PyFunction Heap (Self * Observer) NoKwargs unit :=
  log {| __qualname__ := "DataStore.remove_observer";
         __module__ := "als.model";
         __call__ := fun a _ =>
           let observer := snd a in
           (h <- get_heap ;;
            match list_remove observer (_observers (STORE h)) with
            | None => raise ValueError
            | Some rest =>
                update_store (fun s => {| _observers := rest;
                                          _scan_in_progress := _scan_in_progress s;
                                          _web_server_is_running := _web_server_is_running s |})
            end)%py |}.

(** The store as its callers use it: [STORE.scan_in_progress],
    [STORE.scan_in_progress = b], [STORE.add_observer(o)] and so on. *)
Definition get_web_server_is_running : M Heap bool :=
  __call__ web_server_is_running_fget self no_kwargs.
Definition set_web_server_is_running (running : bool) : M Heap unit :=
  __call__ web_server_is_running_fset (self, running) no_kwargs.
Definition get_scan_in_progress : M Heap bool :=
  __call__ scan_in_progress_fget self no_kwargs.
Definition set_scan_in_progress (in_progress : bool) : M Heap unit :=
  __call__ scan_in_progress_fset (self, in_progress) no_kwargs.
Definition add_observer (observer : Observer) : M Heap unit :=
  __call__ add_observer_def (self, observer) no_kwargs.
Definition remove_observer (observer : Observer) : M Heap unit :=
  __call__ remove_observer_def (self, observer) no_kwargs.

(** A flag assignment, and a run of them by a caller that goes on after a
    failed one. *)
Inductive FlagSet : Type :=
| SetScanInProgress (in_progress : bool)
| SetWebServerIsRunning (running : bool).

Definition flag_set (op : FlagSet) : M Heap unit :=
  match op with
  | SetScanInProgress b => set_scan_in_progress b
  | SetWebServerIsRunning b => set_web_server_is_running b
  end.


(** The observers told to update between world [w] and the later [w']. *)
Definition notified_since (w w' : World Heap) : list Observer :=
  skipn (List.length (notified (heap w))) (notified (heap w')).
End Store.

Arguments Heap Observer Env : clear implicits.

(** *** Image *)

(** What the code reads of a [numpy.ndarray]: its shape and the name of
    its element type. *)
Record ndarray : Type := { shape : list nat; dtype_name : string }.

Record Image : Type :=
  { _data : ndarray; _bayer_pattern : option string; _origin : string }.

(** [Image(data)] *)
Definition Image_new (data : ndarray) : Image :=
  {| _data := data; _bayer_pattern := None; _origin := "UNDEFINED" |}.

Definition data (img : Image) : ndarray := _data img.
Definition set_data (d : ndarray) (img : Image) : Image :=
  {| _data := d; _bayer_pattern := _bayer_pattern img; _origin := _origin img |}.
Definition origin (img : Image) : string := _origin img.
Definition set_origin (o : string) (img : Image) : Image :=
  {| _data := _data img; _bayer_pattern := _bayer_pattern img; _origin := o |}.
Definition bayer_pattern (img : Image) : option string := _bayer_pattern img.
Definition set_bayer_pattern (p : option string) (img : Image) : Image :=
  {| _data := _data img; _bayer_pattern := p; _origin := _origin img |}.

(** [self._bayer_pattern is not None] *)
Definition needs_debayering (img : Image) : bool :=
  match _bayer_pattern img with
  | None => false
  | Some _ => true
  end.

(** [len(self._data.shape) > 2] *)
Definition is_color (img : Image) : bool := Nat.ltb 2 (List.length (shape (_data img))).

#[export] Instance str_optional : PyStr (option string) :=
  fun o => match o with None => "None" | Some s => s end.

Definition IndexError : exn := Exn "IndexError" "tuple index out of range".

(** [shape[i]] *)
Definition shape_item (a : ndarray) (i : nat) : outcome nat :=
  match nth_error (shape a) i with
  | Some n => Returned n
  | None => Raised IndexError
  end.

(** The line of the representation that reports the size. *)
Definition size_line (first second : nat) : string :=
  "Width * Height = " ++ str first ++ " * " ++ str second ++ "," ++ newline.

Definition __repr__ (img : Image) : outcome string :=
  match shape_item (_data img) 0 with
  | Raised e => Raised e
  | Returned shape_0 =>
      match shape_item (_data img) 1 with
      | Raised e => Raised e
      | Returned shape_1 =>
          Returned ("Image(" ++ newline
                    ++ "Color = " ++ str (is_color img) ++ "," ++ newline
                    ++ "Needs Debayer = " ++ str (needs_debayering img) ++ "," ++ newline
                    ++ "Bayer Pattern = " ++ str (bayer_pattern img) ++ "," ++ newline
                    ++ size_line shape_0 shape_1
                    ++ "Data type = " ++ dtype_name (_data img) ++ "," ++ newline
                    ++ "Origin = " ++ origin img ++ ")")
      end
  end.

End model.


(** ** A concrete set of collaborators, to run the code on *)
Module scenario.
Import code_utilities model.

Definition RuntimeError : exn := Exn "RuntimeError" "display is gone".

(** Observers are numbered.  Observer [0] fails whenever it is told to
    update; any other writes its number and the scan flag it read into a
    journal. *)
#[export] Instance numbered : Collaborators nat (list (nat * bool)) :=
  {| observer_eq_dec := Nat.eq_dec;
     update_according_to_app_state := fun o s journal =>
       match o with
       | O => (Raised RuntimeError, journal)
       | S _ => (Returned tt, (journal ++ [(o, _scan_in_progress s)])%list)
       end;
     repr_observer := fun o => "<Observer " ++ str o ++ ">";
     repr_store := "<als.model.DataStore object>" |}.

(** A clock that gives the listed readings, then stands still at zero. *)
Definition readings (l : list float) (k : nat) : float := nth k l 0%float.

(** A world right after start-up, with the given observers registered. *)
Definition boot (observers : list nat) : World (Heap nat (list (nat * bool))) :=
  {| heap := {| STORE := {| _observers := observers;
                            _scan_in_progress := false;
                            _web_server_is_running := false |};
                surroundings := [];
                notified := [] |};
     records := [];
     clock := readings [];
     ticks := 0 |}.

(** A world with nothing on the heap and the given clock readings ahead. *)
Definition bare (l : list float) : World unit :=
  {| heap := tt; records := []; clock := readings l; ticks := 0 |}.

(** A function that fails, and one that answers. *)
Definition failing : PyFunction unit unit NoKwargs bool :=
  {| __qualname__ := "failing"; __module__ := "tests";
     __call__ := fun _ _ => raise RuntimeError |}.

Definition answering : PyFunction unit unit NoKwargs bool :=
  {| __qualname__ := "answering"; __module__ := "tests";
     __call__ := fun _ _ => ret true |}.

Definition str_no_args : PyStr unit := fun _ => "()".

(** A grey image of two rows and three columns. *)
Definition grey_2_by_3 : Image :=
  Image_new {| shape := [2; 3]; dtype_name := "uint8" |}.

End scenario.

(** ** The same code, with str() that can raise and observers that call back

    In the modules above [str(x)] always gives a text and an observer's
    update acts on surroundings of its own.  The code asks for neither:
    [wrapped] evaluates [str(args)], [str(kwargs)] and [str(result)], each of
    which runs the [__str__] or [__repr__] of the value and can raise; and an
    update is any code, so it can call the store that is notifying it, log
    and read the clock.  [_notify_observers] walks the list object itself, by
    position, so a change made to the list during the pass shows in the pass,
    and a list that keeps growing keeps the pass going.  Here the code is
    embedded with all of that: [fuel] bounds the steps of a pass, and a run
    that is still going when the fuel is spent has no result. *)
Module live.
Import code_utilities model.

Declare Scope live_scope.
Delimit Scope live_scope with live.

(** [str(x)]: a text, or the exception that the value's [__str__] raises. *)
Class HasStr (A : Type) : Type := __str__ : A -> outcome string.

#[export] Instance str_of_bool : HasStr bool := fun b => Returned (str b).
#[export] Instance str_of_None : HasStr unit := fun _ => Returned "None".
#[export] Instance str_of_no_kwargs : HasStr NoKwargs := fun _ => Returned "{}".

(** A call without positional arguments: [args] is the empty tuple. *)
Inductive NoArgs : Type := no_args.

#[export] Instance str_of_no_args : HasStr NoArgs := fun _ => Returned "()".
(** [Image] defines [__repr__] and no [__str__]: [str(img)] is [repr(img)]. *)
#[export] Instance str_of_Image : HasStr Image := __repr__.

Section Running.
Context {H : Type}.

(** A computation that may raise and may have no result yet. *)
Definition P (A : Type) : Type := World H -> option (outcome A * World H).

Definition ret {A} (a : A) : P A := fun w => Some (Returned a, w).

Definition raise {A} (e : exn) : P A := fun w => Some (Raised e, w).

Definition bind {A B} (m : P A) (k : A -> P B) : P B :=
  fun w =>
    match m w with
    | Some (Returned a, w') => k a w'
    | Some (Raised e, w') => Some (Raised e, w')
    | None => None
    end.

(** A step that always has a result ([time()], [logger.debug], an
    attribute read or write). *)
Definition step {A} (m : M H A) : P A := fun w => Some (m w).

(** The outcome of an evaluation that does not touch the world. *)
Definition evaluated {A} (r : outcome A) : P A := fun w => Some (r, w).
End Running.

Arguments P H A : clear implicits.

Notation "x <- c1 ;; c2" := (bind c1 (fun x => c2))
  (at level 100, c1 at next level, right associativity) : live_scope.
Notation "c1 ;; c2" := (bind c1 (fun _ => c2))
  (at level 100, right associativity) : live_scope.

(** *** The [log] decorator *)

Section Log.
Context {H Args Kwargs Val : Type}.
Context {str_args : HasStr Args} {str_kwargs : HasStr Kwargs} {str_val : HasStr Val}.

Record PyFunction : Type :=
  def { __qualname__ : string;
        __module__ : string;
        __call__ : Args -> Kwargs -> P H Val }.

Definition called_text (function_name s_args s_kwargs : string) : string :=
  function_name ++ "() called with : " ++ s_args ++ " - " ++ s_kwargs.

Definition returned_text (function_name s_result : string) (start_time end_time : float)
  : string :=
  function_name ++ "() returned " ++ s_result ++ " in "
    ++ format_0_3f ((end_time - start_time) * 1000)%float ++ " ms".

(** The texts of an f-string are evaluated left to right before the record
    is handed to the logger; [str(result)] is evaluated after the end time
    is read. *)
Definition wrapped (func : PyFunction) (args : Args) (kwargs : Kwargs) : P H Val :=
  (let function_name := __qualname__ func in
   let logger := __module__ func in
   s_args <- evaluated (__str__ args) ;;
   s_kwargs <- evaluated (__str__ kwargs) ;;
   step (logger_debug logger (called_text function_name s_args s_kwargs)) ;;
   start_time <- step time ;;
   result <- __call__ func args kwargs ;;
   end_time <- step time ;;
   s_result <- evaluated (__str__ result) ;;
   step (logger_debug logger (returned_text function_name s_result start_time end_time)) ;;
   ret result)%live.

Definition log (func : PyFunction) : PyFunction :=
  {| __qualname__ := __qualname__ func;
     __module__ := __module__ func;
     __call__ := wrapped func |}.

(** The world in which [wrapped] hands over to [func], once the arguments
    are printed as [s_args] and [s_kwargs]. *)
Definition world_at_call (func : PyFunction) (s_args s_kwargs : string) (w : World H)
  : World H :=
  snd (code_utilities.bind
         (logger_debug (__module__ func) (called_text (__qualname__ func) s_args s_kwargs))
         (fun _ => time) w).

(** The world [wrapped] leaves when [func] has returned in [w'] a value
    printed as [s_result]. *)
Definition world_at_return (func : PyFunction) (s_result : string) (start_time : float)
           (w' : World H) : World H :=
  snd (code_utilities.bind time
         (fun end_time =>
            logger_debug (__module__ func)
              (returned_text (__qualname__ func) s_result start_time end_time)) w').
End Log.

Arguments PyFunction H Args Kwargs Val : clear implicits.

(** *** DataStore *)

(** What the store needs of the objects registered with it, apart from
    their update: they can be compared and printed, and printing one can
    raise.  [DataStore] has no [__repr__] of its own, so printing the store
    cannot. *)
Class Registered (Observer : Type) : Type :=
  { observer_eq_dec : forall x y : Observer, {x = y} + {x <> y};
    repr_observer : Observer -> outcome string;
    repr_store : string }.

Section Store.
Context {Observer Env : Type} {registered : Registered Observer}.

#[local] Instance str_of_self : HasStr Self :=
  fun _ => Returned ("(" ++ repr_store ++ ",)").
#[local] Instance str_of_self_bool : HasStr (Self * bool) :=
  fun a => Returned ("(" ++ repr_store ++ ", " ++ str (snd a) ++ ")").
#[local] Instance str_of_self_observer : HasStr (Self * Observer) :=
  fun a =>
    match repr_observer (snd a) with
    | Returned r => Returned ("(" ++ repr_store ++ ", " ++ r ++ ")")
    | Raised e => Raised e
    end.

Definition update_store (f : DataStore Observer -> DataStore Observer)
  : P (Heap Observer Env) unit :=
  step (fun w =>
          (Returned tt,
           {| heap := {| STORE := f (STORE (heap w));
                         surroundings := surroundings (heap w);
                         notified := notified (heap w) |};
              records := records w; clock := clock w; ticks := ticks w |})).

Definition read_store {A : Type} (f : DataStore Observer -> A) : P (Heap Observer Env) A :=
  fun w => Some (Returned (f (STORE (heap w))), w).

Definition web_server_is_running_fget : PyFunction (Heap Observer Env) Self NoKwargs bool :=
  log {| __qualname__ := "DataStore.web_server_is_running";
         __module__ := "als.model";
         __call__ := fun _ _ => read_store _web_server_is_running |}.

Definition scan_in_progress_fget : PyFunction (Heap Observer Env) Self NoKwargs bool :=
  log {| __qualname__ := "DataStore.scan_in_progress";
         __module__ := "als.model";
         __call__ := fun _ _ => read_store _scan_in_progress |}.

Definition add_observer_def : PyFunction (Heap Observer Env) (Self * Observer) NoKwargs unit :=
  log {| __qualname__ := "DataStore.add_observer";
         __module__ := "als.model";
         __call__ := fun a _ =>
           let observer := snd a in
           update_store (fun s => {| _observers := _observers s ++ [observer];
                                     _scan_in_progress := _scan_in_progress s;
                                     _web_server_is_running := _web_server_is_running s |}) |}.

(** [list.remove(x)] *)
Fixpoint list_remove (x : Observer) (l : list Observer) : option (list Observer) :=
  match l with
  | [] => None
  | y :: rest =>
      if observer_eq_dec y x then Some rest
      else option_map (cons y) (list_remove x rest)
  end.

Definition remove_observer_def
  : PyFunction (Heap Observer Env) (Self * Observer) NoKwargs unit :=
  log {| __qualname__ := "DataStore.remove_observer";
         __module__ := "als.model";
         __call__ := fun a _ =>
           let observer := snd a in
           (l <- read_store _observers ;;
            match list_remove observer l with
            | None => raise ValueError
            | Some rest =>
                update_store (fun s => {| _observers := rest;
                                          _scan_in_progress := _scan_in_progress s;
                                          _web_server_is_running := _web_server_is_running s |})
            end)%live |}.

Definition get_web_server_is_running : P (Heap Observer Env) bool :=
  __call__ web_server_is_running_fget self no_kwargs.
Definition get_scan_in_progress : P (Heap Observer Env) bool :=
  __call__ scan_in_progress_fget self no_kwargs.
Definition add_observer (observer : Observer) : P (Heap Observer Env) unit :=
  __call__ add_observer_def (self, observer) no_kwargs.
Definition remove_observer (observer : Observer) : P (Heap Observer Env) unit :=
  __call__ remove_observer_def (self, observer) no_kwargs.

Section Notification.
(** What each observer does when it is told to update: any code. *)
Context (update_according_to_app_state : Observer -> P (Heap Observer Env) unit).

(** [observer.update_according_to_app_state()]; the call is noted in
    [notified] before the update runs. *)
Definition call_update (observer : Observer) : P (Heap Observer Env) unit :=
  fun w =>
    update_according_to_app_state observer
      {| heap := {| STORE := STORE (heap w); surroundings := surroundings (heap w);
                    notified := notified (heap w) ++ [observer] |};
         records := records w; clock := clock w; ticks := ticks w |}.

(** [for observer in self._observers: ...] from position [index] on: each
    step looks the position up in the list as it is then. *)
Fixpoint for_observer_in (fuel index : nat) : P (Heap Observer Env) unit :=
  fun w =>
    match fuel with
    | O => None
    | S fuel' =>
        match nth_error (_observers (STORE (heap w))) index with
        | None => Some (Returned tt, w)
        | Some observer =>
            (call_update observer ;; for_observer_in fuel' (S index))%live w
        end
    end.

Definition _notify_observers (fuel : nat) : PyFunction (Heap Observer Env) Self NoKwargs unit :=
  log {| __qualname__ := "DataStore._notify_observers";
         __module__ := "als.model";
         __call__ := fun _ _ => for_observer_in fuel 0 |}.

Definition web_server_is_running_fset (fuel : nat)
  : PyFunction (Heap Observer Env) (Self * bool) NoKwargs unit :=
  log {| __qualname__ := "DataStore.web_server_is_running";
         __module__ := "als.model";
         __call__ := fun a _ =>
           let running := snd a in
           (update_store (fun s => {| _observers := _observers s;
                                      _scan_in_progress := _scan_in_progress s;
                                      _web_server_is_running := running |}) ;;
            __call__ (_notify_observers fuel) self no_kwargs)%live |}.

Definition scan_in_progress_fset (fuel : nat)
  : PyFunction (Heap Observer Env) (Self * bool) NoKwargs unit :=
  log {| __qualname__ := "DataStore.scan_in_progress";
         __module__ := "als.model";
         __call__ := fun a _ =>
           let in_progress := snd a in
           (update_store (fun s => {| _observers := _observers s;
                                      _scan_in_progress := in_progress;
                                      _web_server_is_running := _web_server_is_running s |}) ;;
            __call__ (_notify_observers fuel) self no_kwargs)%live |}.

Definition set_web_server_is_running (fuel : nat) (running : bool) : P (Heap Observer Env) unit :=
  __call__ (web_server_is_running_fset fuel) (self, running) no_kwargs.
Definition set_scan_in_progress (fuel : nat) (in_progress : bool) : P (Heap Observer Env) unit :=
  __call__ (scan_in_progress_fset fuel) (self, in_progress) no_kwargs.
End Notification.
End Store.

End live.


(** ** Observers that call back, to run the code on *)
Module callers.
Import code_utilities model live.

#[export] Instance numbered : Registered nat :=
  {| live.observer_eq_dec := Nat.eq_dec;
     live.repr_observer := fun o => Returned ("<Observer " ++ str o ++ ">");
     live.repr_store := "<als.model.DataStore object>" |}.

(** An observer writes its number and the flag it has read into a journal. *)
Definition note (o : nat) (flag : bool) : P (Heap nat (list (nat * bool))) unit :=
  step (fun w =>
          (Returned tt,
           {| heap := {| STORE := STORE (heap w);
                         surroundings := (surroundings (heap w) ++ [(o, flag)])%list;
                         notified := notified (heap w) |};
              records := records w; clock := clock w; ticks := ticks w |})).

(** Every observer reads [scan_in_progress] back from the store, through
    the logged getter, and notes it. *)
Definition rereads (o : nat) : P (Heap nat (list (nat * bool))) unit :=
  (flag <- live.get_scan_in_progress ;; note o flag)%live.

(** Observer [0] fails when told to update, observer [1] takes itself off
    the list, observer [7] registers itself once more; the others read the
    flag back. *)
Definition misbehaves (o : nat) : P (Heap nat (list (nat * bool))) unit :=
  match o with
  | 0 => live.raise scenario.RuntimeError
  | 1 => live.remove_observer 1
  | 7 => live.add_observer 7
  | _ => rereads o
  end.

(** Every observer notes that it was told, and does nothing else. *)
Definition notes_only (o : nat) : P (Heap nat (list (nat * bool))) unit := note o true.

Definition boot (observers : list nat) : World (Heap nat (list (nat * bool))) :=
  scenario.boot observers.

(** A function that returns, and one that is given, the image of a
    one-dimensional array, which cannot be printed. *)
Definition a_row : Image := Image_new {| shape := [5]; dtype_name := "uint8" |}.

Definition returns_a_row : live.PyFunction unit NoArgs NoKwargs Image :=
  {| live.__qualname__ := "returns_a_row"; live.__module__ := "tests";
     live.__call__ := fun _ _ => live.ret a_row |}.

Definition takes_an_image : live.PyFunction unit Image NoKwargs bool :=
  {| live.__qualname__ := "takes_an_image"; live.__module__ := "tests";
     live.__call__ := fun img _ => live.ret (is_color img) |}.

End callers.


(** * Properties *)

Import code_utilities model.

(** ** The vocabulary of the statements *)

(** [n] thousandths is a nearest value to [m * 2^e * 1000], and the even one
    when two are as near. *)
Definition nearest_thousandths (m : positive) (e n : Z) : Prop :=
  if (0 <=? e)%Z then n = (Z.pos m * 1000 * 2 ^ e)%Z
  else (2 * Z.abs (Z.pos m * 1000 - n * 2 ^ (- e)) <= 2 ^ (- e))%Z
       /\ ((2 * Z.abs (Z.pos m * 1000 - n * 2 ^ (- e)) = 2 ^ (- e))%Z -> Z.even n = true).

(** [s] is an optional minus sign, the integer [ip] in decimal, a point and
    the three decimal digits [d2 d1 d0]. *)
Definition three_decimals (s : string) (negative : bool) (ip d2 d1 d0 : Z) : Prop :=
  s = (if negative then "-" else EmptyString) ++ decimal ip ++ "."
        ++ String (digit d2) (String (digit d1) (String (digit d0) EmptyString))
  /\ (0 <= ip)%Z /\ (0 <= d2 < 10)%Z /\ (0 <= d1 < 10)%Z /\ (0 <= d0 < 10)%Z.

(** How a notification pass over the store [s] ends: with every entry of
    the observer list told to update, once each and in list order, or with
    an exception, which is then the one raised by the last observer told. *)
Definition pass_ends {Observer Env : Type} {collaborators : Collaborators Observer Env}
           (s : DataStore Observer) (r : outcome unit) (told : list Observer) : Prop :=
  match r with
  | Returned _ => told = _observers s
  | Raised e =>
      exists l1 o l2 env,
        _observers s = (l1 ++ o :: l2)%list
        /\ told = (l1 ++ [o])%list
        /\ fst (update_according_to_app_state o s env) = Raised e
  end.

(** The store [s] with its scan flag, or its web server flag, set to [b]. *)
Definition with_scan_in_progress {Observer : Type} (b : bool) (s : DataStore Observer)
  : DataStore Observer :=
  {| _observers := _observers s; _scan_in_progress := b;
     _web_server_is_running := _web_server_is_running s |}.

Definition with_web_server_is_running {Observer : Type} (b : bool) (s : DataStore Observer)
  : DataStore Observer :=
  {| _observers := _observers s; _scan_in_progress := _scan_in_progress s;
     _web_server_is_running := b |}.

Definition with_observers {Observer : Type} (l : list Observer) (s : DataStore Observer)
  : DataStore Observer :=
  {| _observers := l; _scan_in_progress := _scan_in_progress s;
     _web_server_is_running := _web_server_is_running s |}.

(** The store that a flag assignment writes. *)
Definition assigned {Observer : Type} (op : FlagSet) (s : DataStore Observer)
  : DataStore Observer :=
  match op with
  | SetScanInProgress b => with_scan_in_progress b s
  | SetWebServerIsRunning b => with_web_server_is_running b s
  end.

(** An observer's update raises [e] during a pass: on the store [s], from
    the surroundings [env], the observers of [l] are told one after the
    other, all return up to one that raises [e]; [told] is the observers told,
    the raising one last. *)
Inductive pass_fails {Observer Env : Type} {collaborators : Collaborators Observer Env}
          (s : DataStore Observer) : Env -> list Observer -> list Observer -> exn -> Prop :=
| fails_here (env env' : Env) (o : Observer) (l : list Observer) (e : exn) :
    update_according_to_app_state o s env = (Raised e, env') ->
    pass_fails s env (o :: l) [o] e
| fails_later (env env' : Env) (o : Observer) (l told : list Observer) (e : exn) :
    update_according_to_app_state o s env = (Returned tt, env') ->
    pass_fails s env' l told e ->
    pass_fails s env (o :: l) (o :: told) e.

(** *** Runs of store operations *)

Section StoreRuns.
Context {Observer Env : Type} {collaborators : Collaborators Observer Env}.

(** The updates of a pass by themselves: the observers of [l] act in turn on
    the surroundings, each reading the store [s], up to the first that
    raises. *)
Fixpoint run_updates (s : DataStore Observer) (l : list Observer) (env : Env)
  : outcome unit * Env :=
  match l with
  | [] => (Returned tt, env)
  | o :: rest =>
      match update_according_to_app_state o s env with
      | (Returned _, env') => run_updates s rest env'
      | (Raised e, env') => (Raised e, env')
      end
  end.

(** What a caller can do with the store. *)
Inductive StoreOp : Type :=
| Assign (op : FlagSet)
| ReadScanInProgress
| ReadWebServerIsRunning
| AddObserver (o : Observer)
| RemoveObserver (o : Observer).

(** The observers a run registers. *)
Definition added (ops : list StoreOp) : list Observer :=
  flat_map (fun op => match op with AddObserver o => [o] | _ => [] end) ops.

(** The name and the value of a flag assignment, as the log shows them. *)
Definition flag_qualname (f : FlagSet) : string :=
  match f with
  | SetScanInProgress _ => "DataStore.scan_in_progress"
  | SetWebServerIsRunning _ => "DataStore.web_server_is_running"
  end.

Definition flag_value (f : FlagSet) : bool :=
  match f with
  | SetScanInProgress b => b
  | SetWebServerIsRunning b => b
  end.

(** The messages a flag assignment logs before its pass, and after it. *)
Definition messages_before_pass (f : FlagSet) : list string :=
  [flag_qualname f ++ "() called with : (" ++ repr_store ++ ", " ++ str (flag_value f)
     ++ ") - {}";
   "DataStore._notify_observers() called with : (" ++ repr_store ++ ",) - {}"].

Definition messages_after_pass (f : FlagSet) (t0 t1 t2 t3 : float) : list string :=
  ["DataStore._notify_observers() returned None in "
     ++ format_0_3f ((t2 - t1) * 1000)%float ++ " ms";
   flag_qualname f ++ "() returned None in "
     ++ format_0_3f ((t3 - t0) * 1000)%float ++ " ms"].
End StoreRuns.

(** The records of the store's logger for the given messages. *)
Definition model_records (msgs : list string) : list LogRecord :=
  map (fun m => {| name := "als.model"; levelname := "DEBUG"; msg := m |}) msgs.

(** *** Timers and images over several uses *)

(** [with mgr as t: body] on a timer [mgr] that may have been used before. *)
Definition with_as {H A : Type} (mgr : Timer) (body : Timer -> M H A) (w : World H)
  : outcome A * Timer * World H :=
  match __enter__ mgr w with
  | (Raised e, w1) => (Raised e, mgr, w1)
  | (Returned t, w1) =>
      let '(r, w2) := body t w1 in
      match __exit__ t w2 with
      | (Returned t', w3) => (r, t', w3)
      | (Raised e, w3) => (Raised e, t, w3)
      end
  end.

(** An assignment to one of the three properties of an image. *)
Inductive ImageAssign : Type :=
| AssignData (d : ndarray)
| AssignOrigin (o : string)
| AssignBayerPattern (p : option string).

Definition image_assign (img : Image) (a : ImageAssign) : Image :=
  match a with
  | AssignData d => set_data d img
  | AssignOrigin o => set_origin o img
  | AssignBayerPattern p => set_bayer_pattern p img
  end.

(** The value last assigned to the bayer pattern, or to the data, in a run
    of assignments; the given one when there is none. *)
Fixpoint last_bayer_pattern (p : option string) (l : list ImageAssign) : option string :=
  match l with
  | [] => p
  | AssignBayerPattern p' :: rest => last_bayer_pattern p' rest
  | _ :: rest => last_bayer_pattern p rest
  end.

Fixpoint last_data (d : ndarray) (l : list ImageAssign) : ndarray :=
  match l with
  | [] => d
  | AssignData d' :: rest => last_data d' rest
  | _ :: rest => last_data d rest
  end.

(** *** Observers that call back *)

(** The update of [o] ends, changes no attribute of the store and tells no
    observer: it does not call [add_observer], [remove_observer] or a flag
    setter.  (It may read the flags, log, read the clock, raise.) *)
Definition keeps_off_the_store {Observer Env : Type}
           (update : Observer -> live.P (Heap Observer Env) unit) (o : Observer) : Prop :=
  forall w, exists r w',
    update o w = Some (r, w')
    /\ STORE (heap w') = STORE (heap w)
    /\ notified (heap w') = notified (heap w).

(** The update of [o] writes no log record and does not read the clock. *)
Definition keeps_quiet {Observer Env : Type}
           (update : Observer -> live.P (Heap Observer Env) unit) (o : Observer) : Prop :=
  forall w r w',
    update o w = Some (r, w')
    -> records w' = records w /\ clock w' = clock w /\ ticks w' = ticks w.

(** The update of [o] never raises. *)
Definition never_raises {Observer Env : Type}
           (update : Observer -> live.P (Heap Observer Env) unit) (o : Observer) : Prop :=
  forall w r w', update o w = Some (r, w') -> r = Returned tt.

(** How a pass from position [i] of the list [l] ends when the list stays as
    it is: having told the entries from [i] on, or with the exception that
    the update of the last one told has raised. *)
Definition live_pass_ends {Observer Env : Type}
           (update : Observer -> live.P (Heap Observer Env) unit)
           (l : list Observer) (i : nat) (r : outcome unit) (told : list Observer) : Prop :=
  match r with
  | Returned _ => told = skipn i l
  | Raised e =>
      exists l1 o l2 wa wb,
        skipn i l = (l1 ++ o :: l2)%list
        /\ told = (l1 ++ [o])%list
        /\ update o wa = Some (Raised e, wb)
  end.

(** The collaborators of [model] seen as observers that call back: each
    prints, and its update acts on its surroundings only. *)
Section KeepingToThemselves.
Context {Observer Env : Type} {collaborators : Collaborators Observer Env}.

Definition printable : live.Registered Observer :=
  {| live.observer_eq_dec := observer_eq_dec;
     live.repr_observer := fun o => Returned (repr_observer o);
     live.repr_store := repr_store |}.

Definition acts_on_its_surroundings (o : Observer) : live.P (Heap Observer Env) unit :=
  fun w =>
    let '(r, env') :=
      update_according_to_app_state o (STORE (heap w)) (surroundings (heap w)) in
    Some (r, {| heap := {| STORE := STORE (heap w); surroundings := env';
                           notified := notified (heap w) |};
                records := records w; clock := clock w; ticks := ticks w |}).
End KeepingToThemselves.

Section LiveRuns.
Context {Observer Env : Type} {registered : live.Registered Observer}.
Context (update : Observer -> live.P (Heap Observer Env) unit).

Definition live_flag_set (fuel : nat) (f : FlagSet) : live.P (Heap Observer Env) unit :=
  match f with
  | SetScanInProgress b => live.set_scan_in_progress update fuel b
  | SetWebServerIsRunning b => live.set_web_server_is_running update fuel b
  end.

(** One operation, by a caller that goes on whatever its outcome; nothing
    when the operation has no result. *)
Definition live_store_op (fuel : nat) (op : StoreOp) (w : World (Heap Observer Env))
  : option (World (Heap Observer Env)) :=
  match op with
  | Assign f => option_map snd (live_flag_set fuel f w)
  | ReadScanInProgress => option_map snd (live.get_scan_in_progress w)
  | ReadWebServerIsRunning => option_map snd (live.get_web_server_is_running w)
  | AddObserver o => option_map snd (live.add_observer o w)
  | RemoveObserver o => option_map snd (live.remove_observer o w)
  end.

Fixpoint live_store_ops (fuel : nat) (ops : list StoreOp) (w : World (Heap Observer Env))
  : option (World (Heap Observer Env)) :=
  match ops with
  | [] => Some w
  | op :: rest =>
      match live_store_op fuel op w with
      | Some w1 => live_store_ops fuel rest w1
      | None => None
      end
  end.

(** The attributes one operation leaves when the observers keep off the
    store, read off the operation alone: a registration call does nothing
    when its observer does not print. *)
Definition live_replay_op (s : DataStore Observer) (op : StoreOp) : DataStore Observer :=
  match op with
  | Assign f => assigned f s
  | ReadScanInProgress | ReadWebServerIsRunning => s
  | AddObserver o =>
      match live.repr_observer o with
      | Returned _ => with_observers (_observers s ++ [o]) s
      | Raised _ => s
      end
  | RemoveObserver o =>
      match live.repr_observer o with
      | Returned _ =>
          match live.list_remove o (_observers s) with
          | Some rest => with_observers rest s
          | None => s
          end
      | Raised _ => s
      end
  end.

(** Whether an operation is a flag assignment. *)
Definition is_assignment (op : @StoreOp Observer) : bool :=
  match op with
  | Assign _ => true
  | _ => false
  end.

(** The messages a flag assignment logs itself, before and after its pass. *)
Definition live_messages_before_pass (f : FlagSet) : list string :=
  [flag_qualname f ++ "() called with : (" ++ live.repr_store ++ ", " ++ str (flag_value f)
     ++ ") - {}";
   "DataStore._notify_observers() called with : (" ++ live.repr_store ++ ",) - {}"].
End LiveRuns.

(** The value last assigned to the origin in a run of assignments. *)
Fixpoint last_origin (o : string) (l : list ImageAssign) : string :=
  match l with
  | [] => o
  | AssignOrigin o' :: rest => last_origin o' rest
  | _ :: rest => last_origin o rest
  end.

(** ** The [log] decorator *)

Section LogProperties.
Context {H Args Kwargs Val : Type}.
Context {str_args : PyStr Args} {str_kwargs : PyStr Kwargs} {str_val : PyStr Val}.
Implicit Types (func : PyFunction H Args Kwargs Val) (w : World H).

Lemma heap_at_call func args kwargs w :
  heap (at_call func args kwargs w) = heap w.
Proof. reflexivity. Qed.

Lemma records_at_call func args kwargs w :
  records (at_call func args kwargs w)
  = (records w ++ [{| name := __module__ func; levelname := "DEBUG";
                      msg := called_message (__qualname__ func) args kwargs |}])%list.
Proof. reflexivity. Qed.

Lemma heap_at_return func result t0 w :
  heap (at_return func result t0 w) = heap w.
Proof. reflexivity. Qed.

Lemma records_at_return func result t0 w :
  records (at_return func result t0 w)
  = (records w ++ [{| name := __module__ func; levelname := "DEBUG";
                      msg := returned_message (__qualname__ func) result t0
                               (clock w (ticks w)) |}])%list.
Proof. reflexivity. Qed.

(** The wrapper, read off its body: what happens after the call depends on
    how the call ended. *)
Lemma wrapped_unfold func args kwargs w :
  wrapped func args kwargs w
  = match __call__ func args kwargs (at_call func args kwargs w) with
    | (Returned result, w') =>
        (Returned result, at_return func result (clock w (ticks w)) w')
    | (Raised e, w') => (Raised e, w')
    end.
Proof.
  unfold wrapped, at_call, at_return, bind, logger_debug, time, ret; cbn.
  destruct (__call__ func args kwargs _) as [[result | e] w']; reflexivity.
Qed.

End LogProperties.

(** The wrapper around a function that raises writes the "called" record
    only; around one that answers after 1.5 s it writes both. *)
Example log_of_a_failing_function :
  let r := @wrapped unit unit NoKwargs bool scenario.str_no_args _ _
             scenario.failing tt no_kwargs (scenario.bare [1%float; 2.5%float]) in
  fst r = Raised scenario.RuntimeError
  /\ map msg (records (snd r)) = ["failing() called with : () - {}"].
Proof. vm_compute. split; reflexivity. Qed.

Example log_of_an_answering_function :
  let r := @wrapped unit unit NoKwargs bool scenario.str_no_args _ _
             scenario.answering tt no_kwargs (scenario.bare [1%float; 2.5%float]) in
  fst r = Returned true
  /\ map msg (records (snd r))
     = ["answering() called with : () - {}"; "answering() returned True in 1500.000 ms"].
Proof. vm_compute. split; reflexivity. Qed.

(** ** Fixed-point formatting *)

Section Formatting.
Local Open Scope Z_scope.

Lemma round_half_even_nearest (n d : Z) :
  0 < d ->
  2 * Z.abs (n - round_half_even n d * d) <= d
  /\ (2 * Z.abs (n - round_half_even n d * d) = d -> Z.even (round_half_even n d) = true).
Proof.
  intros Hd. unfold round_half_even.
  pose proof (Z.div_mod n d ltac:(lia)) as Hn.
  pose proof (Z.mod_pos_bound n d Hd) as Hr.
  set (q := n / d) in *. set (r := n mod d) in *.
  destruct (Z.ltb_spec (2 * r) d) as [Hlt | Hge].
  - replace (n - q * d) with r by lia. split; lia.
  - destruct (Z.ltb_spec d (2 * r)) as [Hgt | Hle].
    + replace (n - (q + 1) * d) with (r - d) by lia. split; lia.
    + assert (Htie : 2 * r = d) by lia.
      destruct (Z.even q) eqn:Hq.
      * replace (n - q * d) with r by lia. split; [lia | auto].
      * replace (n - (q + 1) * d) with (r - d) by lia. split; [lia |].
        intros _. rewrite Z.add_1_r, Z.even_succ, <- Z.negb_even, Hq. reflexivity.
Qed.

Lemma round_half_even_nonneg (n d : Z) : 0 <= n -> 0 < d -> 0 <= round_half_even n d.
Proof.
  intros Hn Hd. unfold round_half_even.
  pose proof (Z.div_pos n d Hn Hd).
  repeat match goal with |- context [if ?b then _ else _] => destruct b end; lia.
Qed.

Lemma thousandths_nonneg (m : positive) (e : Z) : 0 <= thousandths m e.
Proof.
  unfold thousandths. destruct (Z.leb_spec 0 e).
  - apply Z.mul_nonneg_nonneg; [lia | apply Z.pow_nonneg; lia].
  - apply round_half_even_nonneg; [lia | apply Z.pow_pos_nonneg; lia].
Qed.

Lemma thousandths_nearest (m : positive) (e : Z) :
  nearest_thousandths m e (thousandths m e).
Proof.
  unfold nearest_thousandths, thousandths. destruct (Z.leb_spec 0 e); [reflexivity |].
  apply round_half_even_nearest, Z.pow_pos_nonneg; lia.
Qed.

(** A number of thousandths is printed as its integer part and the three
    digits of the rest. *)
Lemma fixed3_three_decimals (negative : bool) (n : Z) :
  0 <= n ->
  exists ip d2 d1 d0,
    three_decimals (fixed3 negative n) negative ip d2 d1 d0
    /\ n = 1000 * ip + 100 * d2 + 10 * d1 + d0.
Proof.
  intros Hn.
  exists (n / 1000), (n mod 1000 / 100), (n mod 1000 / 10 mod 10), (n mod 1000 mod 10).
  pose proof (Z.mod_pos_bound n 1000 ltac:(lia)) as Hk.
  pose proof (Z.div_mod n 1000 ltac:(lia)) as Hdm.
  pose proof (Z.div_pos n 1000 Hn ltac:(lia)) as Hip.
  set (k := n mod 1000) in *.
  unfold three_decimals, fixed3, three_digits. fold k.
  repeat split; try assumption;
    try (Z.div_mod_to_equations; lia).
Qed.

Lemma format_0_3f_finite (x : float) (s : bool) (m : positive) (e : Z) :
  Prim2SF x = S754_finite s m e ->
  exists ip d2 d1 d0,
    three_decimals (format_0_3f x) s ip d2 d1 d0
    /\ nearest_thousandths m e (1000 * ip + 100 * d2 + 10 * d1 + d0).
Proof.
  intros Hx. unfold format_0_3f. rewrite Hx.
  destruct (fixed3_three_decimals s (thousandths m e) (thousandths_nonneg m e))
    as (ip & d2 & d1 & d0 & Hshape & Hval).
  exists ip, d2, d1, d0. split; [exact Hshape |].
  rewrite <- Hval. apply thousandths_nearest.
Qed.

Lemma format_0_3f_zero (x : float) (s : bool) :
  Prim2SF x = S754_zero s -> three_decimals (format_0_3f x) s 0 0 0 0.
Proof.
  intros Hx. unfold format_0_3f. rewrite Hx. unfold three_decimals. cbn. repeat split; lia.
Qed.
End Formatting.

(** ** The [Timer] context manager *)

Section TimerProperties.
Context {H A : Type}.
Implicit Types (body : Timer -> M H A) (w : World H).

(** The block, read off [with_Timer]: the timer handed to [body] has its
    start set, and [__exit__] fills in the rest from the clock as [body]
    left it, whatever the outcome of [body]. *)
Lemma with_Timer_unfold body w :
  with_Timer body w
  = let t0 := clock w (ticks w) in
    let entered := {| start := Some t0; end_ := None; elapsed_in_milli := None;
                      elapsed_in_milli_as_str := None |} in
    let '(r, w2) := body entered (snd (time w)) in
    let t1 := clock w2 (ticks w2) in
    let elapsed := ((t1 - t0) * 1000)%float in
    (r,
     {| start := Some t0; end_ := Some t1; elapsed_in_milli := Some elapsed;
        elapsed_in_milli_as_str := Some (format_0_3f elapsed) |},
     snd (time w2)).
Proof.
  unfold with_Timer, __enter__, __exit__, bind, time, ret; cbn.
  destruct (body _ _) as [r w2]; reflexivity.
Qed.

(** C8. When a [Timer] block is left, normally or by a failure (which then
    goes on to the caller), [elapsed_in_milli] is [(end - start) * 1000] for
    the clock readings taken on entry and on exit, and
    [elapsed_in_milli_as_str] is that number printed with three decimals: for
    a finite number the printed value is a nearest number of thousandths (the
    even one on a tie), a zero is printed with three zeros, and 12.3456 is
    printed "12.346". *)
Theorem timer_elapsed_on_release body w :
  (exists r w2 t,
      with_Timer body w = (r, t, snd (time w2))
      /\ body {| start := Some (clock w (ticks w)); end_ := None;
                 elapsed_in_milli := None; elapsed_in_milli_as_str := None |}
              (snd (time w)) = (r, w2)
      /\ start t = Some (clock w (ticks w))
      /\ end_ t = Some (clock w2 (ticks w2))
      /\ elapsed_in_milli t
         = Some ((clock w2 (ticks w2) - clock w (ticks w)) * 1000)%float
      /\ elapsed_in_milli_as_str t
         = Some (format_0_3f ((clock w2 (ticks w2) - clock w (ticks w)) * 1000)%float))
  /\ (forall (x : float) (s : bool) (m : positive) (e : Z),
         Prim2SF x = S754_finite s m e ->
         exists ip d2 d1 d0,
           three_decimals (format_0_3f x) s ip d2 d1 d0
           /\ nearest_thousandths m e (1000 * ip + 100 * d2 + 10 * d1 + d0)%Z)
  /\ (forall (x : float) (s : bool),
         Prim2SF x = S754_zero s -> three_decimals (format_0_3f x) s 0 0 0 0)
  /\ format_0_3f 0x1.8b0f27bb2fec5p+3 = "12.346".
Proof.
  split; [| split; [| split]].
  - rewrite with_Timer_unfold. cbv zeta.
    destruct (body _ _) as [r w2]. exists r, w2. eexists.
    split; [reflexivity |]. cbn. repeat split.
  - exact format_0_3f_finite.
  - exact format_0_3f_zero.
  - vm_compute. reflexivity.
Qed.
End TimerProperties.

(** A tie goes to the even neighbour: 0.0625 is exactly 62.5 thousandths. *)
Example format_0_3f_tie : format_0_3f 0.0625 = "0.062" /\ format_0_3f 0.1875 = "0.188".
Proof. vm_compute. split; reflexivity. Qed.

(** A negative number that rounds to zero keeps its sign, and infinities and
    not-a-number are spelled out. *)
Example format_0_3f_specials :
  format_0_3f (-0x1p-20) = "-0.000"
  /\ format_0_3f infinity = "inf"
  /\ format_0_3f neg_infinity = "-inf"
  /\ format_0_3f nan = "nan".
Proof. vm_compute. repeat split. Qed.

(** A block that fails, timed between the readings 0 s and 0.0123456 s: the
    failure comes out and the timer holds "12.346". *)
Example timer_12_3456_ms :
  let '(r, t, _) := with_Timer (fun _ => raise scenario.RuntimeError : M unit unit)
                      (scenario.bare [0%float; 0x1.948a661fef899p-7%float]) in
  r = Raised scenario.RuntimeError
  /\ elapsed_in_milli t = Some 0x1.8b0f27bb2fec5p+3%float
  /\ elapsed_in_milli_as_str t = Some "12.346".
Proof. vm_compute. repeat split. Qed.

(** ** The data store *)

Section StoreProperties.
Context {Observer Env : Type} {collaborators : Collaborators Observer Env}.
Implicit Types (w : World (Heap Observer Env)) (o : Observer) (l : list Observer).
Implicit Types (s : DataStore Observer) (b : bool).

(** The loop leaves the store, the log and the clock alone. *)
Lemma for_observer_in_frame l : forall w,
  STORE (heap (snd (for_observer_in l w))) = STORE (heap w)
  /\ records (snd (for_observer_in l w)) = records w
  /\ ticks (snd (for_observer_in l w)) = ticks w.
Proof.
  induction l as [| o l IH]; intros w; [repeat split |].
  cbn [for_observer_in]. unfold bind, call_update.
  destruct (update_according_to_app_state o _ _) as [[[] | e] env']; cbn [snd].
  - destruct (IH {| heap := {| STORE := STORE (heap w); surroundings := env';
                                notified := (notified (heap w) ++ [o])%list |};
                    records := records w; clock := clock w; ticks := ticks w |})
      as (-> & -> & ->).
    repeat split.
  - repeat split.
Qed.

(** The observers the loop tells, by induction on the list it walks. *)
Lemma for_observer_in_told l : forall w,
  exists told,
    notified (heap (snd (for_observer_in l w))) = (notified (heap w) ++ told)%list
    /\ match fst (for_observer_in l w) with
       | Returned _ => told = l
       | Raised e =>
           exists l1 o l2 env,
             l = (l1 ++ o :: l2)%list
             /\ told = (l1 ++ [o])%list
             /\ fst (update_according_to_app_state o (STORE (heap w)) env) = Raised e
       end.
Proof.
  induction l as [| o l IH]; intros w.
  - exists []. cbn. split; [now rewrite app_nil_r | reflexivity].
  - cbn [for_observer_in]. unfold bind, call_update.
    destruct (update_according_to_app_state o (STORE (heap w)) (surroundings (heap w)))
      as [[[] | e] env'] eqn:Hupd.
    + set (w1 := {| heap := _ |}).
      destruct (IH w1) as (told & Hn & Hr).
      exists (o :: told). split.
      * rewrite Hn. subst w1. cbn. now rewrite <- app_assoc.
      * destruct (fst (for_observer_in l w1)) as [[] | e].
        -- now subst told.
        -- destruct Hr as (l1 & o' & l2 & env & -> & -> & Ho').
           exists (o :: l1), o', l2, env. repeat split. exact Ho'.
    + exists [o]. cbn. split; [reflexivity |].
      exists [], o, l, (surroundings (heap w)). repeat split. now rewrite Hupd.
Qed.
(** [self._notify_observers()], wrapper included. *)
Lemma notify_observers_spec w :
  STORE (heap (snd (__call__ _notify_observers self no_kwargs w))) = STORE (heap w)
  /\ exists told,
       notified (heap (snd (__call__ _notify_observers self no_kwargs w)))
       = (notified (heap w) ++ told)%list
       /\ pass_ends (STORE (heap w)) (fst (__call__ _notify_observers self no_kwargs w)) told.
Proof.
  unfold _notify_observers. cbn [log __call__]. rewrite wrapped_unfold. cbn [__call__].
  set (w0 := at_call _ _ _ w).
  unfold bind, get_heap.
  pose proof (for_observer_in_frame (_observers (STORE (heap w0))) w0) as (Hs & _ & _).
  destruct (for_observer_in_told (_observers (STORE (heap w0))) w0) as (told & Hn & Hr).
  change (heap w0) with (heap w) in *.
  destruct (for_observer_in _ w0) as [[[] | e] w'] eqn:Hrun; cbn [fst snd] in *.
  - rewrite heap_at_return. split; [exact Hs |]. exists told. split; [exact Hn | exact Hr].
  - split; [exact Hs |]. exists told. split; [exact Hn | exact Hr].
Qed.
(** A flag assignment: the attribute is written first, then the pass runs
    on the store as written. *)
Ltac setter_spec w :=
  cbn [log __call__]; rewrite wrapped_unfold; cbn [__call__ snd];
  set (w0 := at_call _ _ _ w);
  unfold bind at 1; unfold update_store, bind, get_heap, put_heap;
  match goal with
  | |- context [__call__ _notify_observers self no_kwargs ?w1] =>
      pose proof (notify_observers_spec w1) as (Hs & told & Hn & Hr);
      destruct (__call__ _notify_observers self no_kwargs w1) as [[[] | e] w'];
      cbn [fst snd heap STORE notified] in *;
      rewrite ?heap_at_return;
      (split; [exact Hs | exists told; split; [exact Hn | exact Hr]])
  end.

Lemma set_scan_in_progress_spec b w :
  STORE (heap (snd (set_scan_in_progress b w))) = with_scan_in_progress b (STORE (heap w))
  /\ exists told,
       notified (heap (snd (set_scan_in_progress b w))) = (notified (heap w) ++ told)%list
       /\ pass_ends (with_scan_in_progress b (STORE (heap w)))
            (fst (set_scan_in_progress b w)) told.
Proof. unfold set_scan_in_progress, scan_in_progress_fset. setter_spec w. Qed.

Lemma set_web_server_is_running_spec b w :
  STORE (heap (snd (set_web_server_is_running b w)))
  = with_web_server_is_running b (STORE (heap w))
  /\ exists told,
       notified (heap (snd (set_web_server_is_running b w))) = (notified (heap w) ++ told)%list
       /\ pass_ends (with_web_server_is_running b (STORE (heap w)))
            (fst (set_web_server_is_running b w)) told.
Proof. unfold set_web_server_is_running, web_server_is_running_fset. setter_spec w. Qed.
Lemma flag_set_spec (op : FlagSet) w :
  STORE (heap (snd (flag_set op w))) = assigned op (STORE (heap w))
  /\ exists told,
       notified (heap (snd (flag_set op w))) = (notified (heap w) ++ told)%list
       /\ pass_ends (assigned op (STORE (heap w))) (fst (flag_set op w)) told.
Proof.
  destruct op as [b | b]; cbn [flag_set assigned].
  - apply set_scan_in_progress_spec.
  - apply set_web_server_is_running_spec.
Qed.

Lemma notified_since_app w w' (told : list Observer) :
  notified (heap w') = (notified (heap w) ++ told)%list -> notified_since w w' = told.
Proof.
  intros Hn. unfold notified_since. rewrite Hn.
  rewrite skipn_app, skipn_all, Nat.sub_diag. reflexivity.
Qed.



(** Conversely an assignment raises only when an observer's update does. *)
Lemma for_observer_in_raised l : forall w e,
  fst (for_observer_in l w) = Raised e ->
  exists told, pass_fails (STORE (heap w)) (surroundings (heap w)) l told e.
Proof.
  induction l as [| o l IH]; intros w e; cbn [for_observer_in]; [discriminate |].
  unfold bind, call_update.
  destruct (update_according_to_app_state o (STORE (heap w)) (surroundings (heap w)))
    as [[[] | e'] env'] eqn:Hupd; cbn [fst].
  - intros Hr. apply IH in Hr. destruct Hr as (told & Hfail).
    exists (o :: told). exact (fails_later _ _ _ _ _ _ _ Hupd Hfail).
  - intros [= ->]. exists [o]. exact (fails_here _ _ _ _ _ _ Hupd).
Qed.

Lemma notify_observers_raised w (e : exn) :
  fst (__call__ _notify_observers self no_kwargs w) = Raised e ->
  exists told,
    pass_fails (STORE (heap w)) (surroundings (heap w)) (_observers (STORE (heap w))) told e.
Proof.
  unfold _notify_observers. cbn [log __call__]. rewrite wrapped_unfold. cbn [__call__].
  set (w0 := at_call _ _ _ w).
  unfold bind, get_heap.
  pose proof (for_observer_in_raised (_observers (STORE (heap w0))) w0 e) as Hraised.
  change (heap w0) with (heap w) in *.
  destruct (for_observer_in _ w0) as [[[] | e'] w']; cbn [fst] in *;
    [discriminate | exact Hraised].
Qed.

Lemma flag_set_raised (op : FlagSet) w (e : exn) :
  fst (flag_set op w) = Raised e ->
  exists told,
    pass_fails (assigned op (STORE (heap w))) (surroundings (heap w))
      (_observers (STORE (heap w))) told e.
Proof.
  destruct op as [b | b]; cbn [flag_set assigned];
    [unfold set_scan_in_progress, scan_in_progress_fset
    | unfold set_web_server_is_running, web_server_is_running_fset];
    cbn [log __call__]; rewrite wrapped_unfold; cbn [__call__ snd];
    set (w0 := at_call _ _ _ w);
    unfold bind at 1; unfold update_store, bind, get_heap, put_heap;
    match goal with
    | |- context [__call__ _notify_observers self no_kwargs ?w1] =>
        pose proof (notify_observers_raised w1 e) as Hraised;
        destruct (__call__ _notify_observers self no_kwargs w1) as [[[] | e'] w'];
        cbn [fst] in *; [discriminate | exact Hraised]
    end.
Qed.

(** [list.remove]: it fails exactly on a list without the item, and
    otherwise drops the first occurrence. *)
Lemma list_remove_absent o l : list_remove o l = None <-> ~ In o l.
Proof.
  induction l as [| y l IH]; cbn.
  - split; [intros _ [] | reflexivity].
  - destruct (observer_eq_dec y o) as [-> | Hne].
    + split; [discriminate | intros Hno; exfalso; apply Hno; now left].
    + destruct (list_remove o l) as [rest |]; cbn.
      * split; [discriminate |]. intros Hno. exfalso.
        assert (Hin : ~ In o l) by (intros Hin; apply Hno; now right).
        apply IH in Hin. discriminate.
      * split; [| reflexivity]. intros _ [Heq | Hin]; [now apply Hne |].
        now apply (proj1 IH).
Qed.

Lemma list_remove_first o l1 l2 :
  ~ In o l1 -> list_remove o (l1 ++ o :: l2) = Some (l1 ++ l2)%list.
Proof.
  induction l1 as [| y l1 IH]; cbn; intros Hno.
  - destruct (observer_eq_dec o o); [reflexivity | congruence].
  - destruct (observer_eq_dec y o) as [-> | Hne]; [exfalso; apply Hno; now left |].
    rewrite IH by (intros Hin; apply Hno; now right). reflexivity.
Qed.


(** [remove_observer], wrapper included: the outcome and the heap it leaves. *)
Lemma remove_observer_spec o w :
  match list_remove o (_observers (STORE (heap w))) with
  | None =>
      fst (remove_observer o w) = Raised ValueError
      /\ heap (snd (remove_observer o w)) = heap w
  | Some rest =>
      fst (remove_observer o w) = Returned tt
      /\ heap (snd (remove_observer o w))
         = {| STORE := with_observers rest (STORE (heap w));
              surroundings := surroundings (heap w);
              notified := notified (heap w) |}
  end.
Proof.
  unfold remove_observer, remove_observer_def. cbn [log __call__].
  rewrite wrapped_unfold. cbn [__call__ snd].
  unfold bind, get_heap. change (heap (at_call _ _ _ w)) with (heap w).
  destruct (list_remove o _) as [rest |]; cbn; split; reflexivity.
Qed.

Lemma add_observer_spec o w :
  fst (add_observer o w) = Returned tt
  /\ heap (snd (add_observer o w))
     = {| STORE := with_observers (_observers (STORE (heap w)) ++ [o]) (STORE (heap w));
          surroundings := surroundings (heap w);
          notified := notified (heap w) |}.
Proof.
  unfold add_observer, add_observer_def. cbn [log __call__].
  rewrite wrapped_unfold. cbn. split; reflexivity.
Qed.



(** C3.  [remove_observer] raises, and the exception reaches the caller, if
    and only if the observer is not in the observer list; the exception is
    then the [ValueError] of [list.remove] and the store is left as it was.
    When the observer is in the list the call returns and the list has lost
    its first entry equal to the observer, and nothing else. *)
Theorem remove_observer_raises_iff_absent o w :
  ((exists e, fst (remove_observer o w) = Raised e)
   <-> ~ In o (_observers (STORE (heap w))))
  /\ (forall e, fst (remove_observer o w) = Raised e ->
       e = ValueError /\ heap (snd (remove_observer o w)) = heap w)
  /\ (forall l1 l2,
       _observers (STORE (heap w)) = (l1 ++ o :: l2)%list -> ~ In o l1 ->
       fst (remove_observer o w) = Returned tt
       /\ _observers (STORE (heap (snd (remove_observer o w)))) = (l1 ++ l2)%list).
Proof.
  pose proof (remove_observer_spec o w) as Hrem.
  destruct (list_remove o (_observers (STORE (heap w)))) as [rest |] eqn:Hlr;
    destruct Hrem as (Hret & Hheap); rewrite Hret.
  - split; [split |]; [intros (e & He); discriminate | | split].
    + intros Hno. apply list_remove_absent in Hno. congruence.
    + intros e He. discriminate.
    + intros l1 l2 Hsplit Hfirst. split; [reflexivity |].
      rewrite Hheap. cbn. rewrite Hsplit, list_remove_first in Hlr by assumption.
      congruence.
  - split; [split |]; [intros _; now apply list_remove_absent | | split].
    + intros _. now exists ValueError.
    + intros e He. split; [congruence | exact Hheap].
    + intros l1 l2 Hsplit Hfirst. exfalso.
      rewrite Hsplit, list_remove_first in Hlr by assumption. discriminate.
Qed.


End StoreProperties.

(** ** The data store on concrete observers *)

Section StoreExamples.
Import scenario.



End StoreExamples.

(** ** Images *)

Section ImageProperties.
Implicit Types (img : Image) (data : ndarray).

(** C5.  [needs_debayering()] holds exactly of an image whose bayer pattern
    is present; it holds once a pattern is set, no longer holds once the
    pattern is set back to [None], and does not hold of a new image. *)
Theorem needs_debayering_iff_bayer_pattern img (pattern : string) data :
  (needs_debayering img = true <-> bayer_pattern img <> None)
  /\ needs_debayering (set_bayer_pattern (Some pattern) img) = true
  /\ needs_debayering (set_bayer_pattern None (set_bayer_pattern (Some pattern) img)) = false
  /\ needs_debayering (Image_new data) = false.
Proof.
  repeat split.
  - unfold needs_debayering, bayer_pattern. destruct (_bayer_pattern img); [discriminate |].
    intros Hfalse _. discriminate.
  - unfold needs_debayering, bayer_pattern. destruct (_bayer_pattern img); [reflexivity |].
    intros Hnone. now elim Hnone.
Qed.

(** C6.  [is_color()] holds exactly of an image whose array has more than
    two dimensions: not of shape [(H, W)], and of shape [(H, W, C)] for any
    [C], so for [C >= 1]. *)
Theorem is_color_iff_more_than_two_dimensions img (H W C : nat) :
  (is_color img = true <-> 2 < List.length (shape (_data img)))
  /\ (shape (_data img) = [H; W] -> is_color img = false)
  /\ (shape (_data img) = [H; W; C] -> is_color img = true).
Proof.
  unfold is_color. repeat split.
  - apply Nat.ltb_lt.
  - apply Nat.ltb_lt.
  - intros ->. reflexivity.
  - intros ->. reflexivity.
Qed.

Lemma append_assoc (s1 s2 s3 : string) : (s1 ++ s2) ++ s3 = s1 ++ (s2 ++ s3).
Proof. induction s1 as [| c s1 IH]; cbn; [reflexivity | now rewrite IH]. Qed.

(** C7, as the code has it.  For an array of shape [(H, W)], that is [H]
    rows of [W] items, the size line of the representation reads
    "Width * Height = H * W": the width it reports is the first dimension
    and the height it reports is the second, not the other way round. *)
Theorem repr_reports_first_dimension_as_width (H W : nat) (dtype : string) :
  __repr__ (Image_new {| shape := [H; W]; dtype_name := dtype |})
  = Returned ("Image(" ++ newline
              ++ "Color = False," ++ newline
              ++ "Needs Debayer = False," ++ newline
              ++ "Bayer Pattern = None," ++ newline
              ++ "Width * Height = " ++ str H ++ " * " ++ str W ++ "," ++ newline
              ++ "Data type = " ++ dtype ++ "," ++ newline
              ++ "Origin = UNDEFINED)").
Proof.
  unfold __repr__, shape_item, size_line. cbn [nth_error shape _data Image_new].
  rewrite !append_assoc. reflexivity.
Qed.

(** Two rows of three items are reported as a width of 2 and a height of 3. *)
Example repr_of_2_rows_3_columns :
  exists before after,
    __repr__ scenario.grey_2_by_3
    = Returned (before ++ "Width * Height = 2 * 3," ++ after).
Proof.
  exists ("Image(" ++ newline ++ "Color = False," ++ newline ++ "Needs Debayer = False,"
          ++ newline ++ "Bayer Pattern = None," ++ newline).
  exists (newline ++ "Data type = uint8," ++ newline ++ "Origin = UNDEFINED)").
  vm_compute. reflexivity.
Qed.
End ImageProperties.


(** * More of the code *)

(** ** The pass and the wrappers, in full *)

Section StoreWorlds.
Context {Observer Env : Type} {collaborators : Collaborators Observer Env}.
Implicit Types (w : World (Heap Observer Env)) (o : Observer) (l : list Observer).
Implicit Types (s : DataStore Observer) (b : bool).

(** The loop acts on the surroundings as [run_updates] does and has the same
    outcome; it does not touch the clock. *)
Lemma for_observer_in_run_updates l : forall w,
  fst (for_observer_in l w) = fst (run_updates (STORE (heap w)) l (surroundings (heap w)))
  /\ surroundings (heap (snd (for_observer_in l w)))
     = snd (run_updates (STORE (heap w)) l (surroundings (heap w)))
  /\ clock (snd (for_observer_in l w)) = clock w.
Proof.
  induction l as [| o l IH]; intros w; [repeat split |].
  cbn [for_observer_in run_updates]. unfold bind, call_update.
  destruct (update_according_to_app_state o (STORE (heap w)) (surroundings (heap w)))
    as [[[] | e] env']; cbn [fst snd].
  - set (w1 := {| heap := _ |}). exact (IH w1).
  - repeat split.
Qed.

(** The record a store method logs. *)
Lemma called_with_self (qualname : string) :
  @called_message Self NoKwargs str_args_self _ qualname self no_kwargs
  = qualname ++ "() called with : (" ++ repr_store ++ ",) - {}".
Proof.
  unfold called_message, str, str_args_self, str_no_kwargs.
  now rewrite !append_assoc.
Qed.

Lemma called_with_self_and_flag (qualname : string) b :
  @called_message (Self * bool) NoKwargs str_args_self_bool _ qualname (self, b) no_kwargs
  = qualname ++ "() called with : (" ++ repr_store ++ ", " ++ str b ++ ") - {}".
Proof.
  unfold called_message. change (str no_kwargs) with "{}".
  change (@str (Self * bool) str_args_self_bool (self, b))
    with ("(" ++ repr_store ++ ", " ++ str b ++ ")").
  now rewrite !append_assoc.
Qed.
(** [self._notify_observers()] in full: outcome, heap, clock and log. *)
Lemma notify_observers_world w :
  fst (__call__ _notify_observers self no_kwargs w)
  = fst (run_updates (STORE (heap w)) (_observers (STORE (heap w))) (surroundings (heap w)))
  /\ STORE (heap (snd (__call__ _notify_observers self no_kwargs w))) = STORE (heap w)
  /\ surroundings (heap (snd (__call__ _notify_observers self no_kwargs w)))
     = snd (run_updates (STORE (heap w)) (_observers (STORE (heap w)))
              (surroundings (heap w)))
  /\ clock (snd (__call__ _notify_observers self no_kwargs w)) = clock w
  /\ match fst (__call__ _notify_observers self no_kwargs w) with
     | Returned _ =>
         ticks (snd (__call__ _notify_observers self no_kwargs w)) = 2 + ticks w
         /\ records (snd (__call__ _notify_observers self no_kwargs w))
            = (records w
               ++ model_records
                    [("DataStore._notify_observers() called with : (" ++ repr_store
                        ++ ",) - {}")%string;
                     ("DataStore._notify_observers() returned None in "
                        ++ format_0_3f ((clock w (S (ticks w)) - clock w (ticks w)) * 1000)%float
                        ++ " ms")%string])%list
     | Raised _ =>
         ticks (snd (__call__ _notify_observers self no_kwargs w)) = 1 + ticks w
         /\ records (snd (__call__ _notify_observers self no_kwargs w))
            = (records w
               ++ model_records
                    [("DataStore._notify_observers() called with : (" ++ repr_store
                        ++ ",) - {}")%string])%list
     end.
Proof.
  unfold _notify_observers. cbn [log __call__]. rewrite wrapped_unfold. cbn [__call__].
  set (func := {| __qualname__ := "DataStore._notify_observers" |}).
  set (w0 := at_call func self no_kwargs w).
  unfold bind, get_heap.
  pose proof (for_observer_in_frame (_observers (STORE (heap w0))) w0) as (Hs & Hrec & Htick).
  pose proof (for_observer_in_run_updates (_observers (STORE (heap w0))) w0)
    as (Hfst & Henv & Hclock).
  assert (Hrec0 : records w0
                  = (records w ++ model_records
                       [("DataStore._notify_observers() called with : (" ++ repr_store
                           ++ ",) - {}")%string])%list).
  { subst w0. rewrite records_at_call. cbn [model_records map]. subst func.
    cbn [__module__ __qualname__]. now rewrite called_with_self. }
  change (heap w0) with (heap w) in *.
  change (ticks w0) with (S (ticks w)) in *.
  change (clock w0) with (clock w) in *.
  destruct (for_observer_in _ w0) as [[[] | e] w1]; cbn [fst snd] in *.
  - rewrite heap_at_return, records_at_return. repeat split; try assumption.
    + cbn. now rewrite Htick.
    + rewrite Hrec, Hrec0, Hclock, Htick, <- app_assoc. reflexivity.
  - repeat split; try assumption. now rewrite Hrec.
Qed.
Lemma ticks_at_call {A K V : Type} {sa : PyStr A} {sk : PyStr K} {sv : PyStr V}
      (func : PyFunction (Heap Observer Env) A K V) (a : A) (k : K) w :
  ticks (at_call func a k w) = S (ticks w) /\ clock (at_call func a k w) = clock w.
Proof. split; reflexivity. Qed.

Lemma ticks_at_return {A K V : Type} {sa : PyStr A} {sk : PyStr K} {sv : PyStr V}
      (func : PyFunction (Heap Observer Env) A K V) (v : V) (t0 : float) w :
  ticks (at_return func v t0 w) = S (ticks w) /\ clock (at_return func v t0 w) = clock w.
Proof. split; reflexivity. Qed.

Lemma flag_set_world (f : FlagSet) w :
  fst (flag_set f w)
  = fst (run_updates (assigned f (STORE (heap w))) (_observers (STORE (heap w)))
           (surroundings (heap w)))
  /\ surroundings (heap (snd (flag_set f w)))
     = snd (run_updates (assigned f (STORE (heap w))) (_observers (STORE (heap w)))
              (surroundings (heap w)))
  /\ clock (snd (flag_set f w)) = clock w
  /\ match fst (flag_set f w) with
     | Returned _ =>
         ticks (snd (flag_set f w)) = 4 + ticks w
         /\ records (snd (flag_set f w))
            = (records w
               ++ model_records
                    (messages_before_pass f
                     ++ messages_after_pass f (clock w (ticks w)) (clock w (1 + ticks w))
                          (clock w (2 + ticks w)) (clock w (3 + ticks w))))%list
     | Raised _ =>
         ticks (snd (flag_set f w)) = 2 + ticks w
         /\ records (snd (flag_set f w))
            = (records w ++ model_records (messages_before_pass f))%list
     end.
Proof.
  destruct f as [b | b]; cbn [flag_set assigned];
    [unfold set_scan_in_progress, scan_in_progress_fset
    | unfold set_web_server_is_running, web_server_is_running_fset];
    cbn [log __call__]; rewrite wrapped_unfold; cbn [__call__ snd];
    match goal with |- context [at_call ?func ?a ?k w] =>
      set (w0 := at_call func a k w);
      assert (Htick0 : ticks w0 = S (ticks w)) by reflexivity;
      assert (Hclock0 : clock w0 = clock w) by reflexivity;
      assert (Hheap0 : heap w0 = heap w) by reflexivity;
      pose proof (eq_refl (records w0)) as Hrec0;
      unfold w0 in Hrec0 at 2; rewrite records_at_call in Hrec0;
      cbn [__module__ __qualname__] in Hrec0;
      rewrite called_with_self_and_flag in Hrec0
    end;
    unfold bind at 1; unfold update_store, bind, get_heap, put_heap;
    match goal with
    | |- context [__call__ _notify_observers self no_kwargs ?w1] =>
        pose proof (notify_observers_world w1) as (Hfst & Hs & Henv & Hclock & Hlog);
        destruct (__call__ _notify_observers self no_kwargs w1) as [[[] | e] w2];
        cbn [fst snd heap STORE surroundings notified records clock ticks
               _observers _scan_in_progress _web_server_is_running] in *
    end.
  all: destruct Hlog as (Htick2 & Hrec2);
    rewrite ?heap_at_return, ?records_at_return;
    rewrite Hrec2, Hrec0; rewrite ?Hclock, ?Hclock0, ?Htick2, ?Htick0;
    (split; [exact Hfst |]); (split; [exact Henv |]);
    (split; [cbn; now rewrite ?Hclock, ?Hclock0 |]);
    (split; [cbn; now rewrite ?Htick2, ?Htick0 |]);
    unfold model_records, messages_before_pass, messages_after_pass;
    cbn [map app flag_qualname flag_value]; rewrite <- !app_assoc; reflexivity.
Qed.
(** ** Flag assignments, beyond the pass *)

(** X3.  With no observer registered, every flag assignment returns
    normally, tells nobody and leaves the surroundings alone, and every
    [remove_observer] raises [ValueError]. *)
Theorem store_without_observers (f : FlagSet) o w :
  _observers (STORE (heap w)) = [] ->
  fst (flag_set f w) = Returned tt
  /\ notified (heap (snd (flag_set f w))) = notified (heap w)
  /\ surroundings (heap (snd (flag_set f w))) = surroundings (heap w)
  /\ fst (remove_observer o w) = Raised ValueError.
Proof.
  intros Hnone.
  destruct (flag_set_world f w) as (Hfst & Henv & _).
  destruct (flag_set_spec f w) as (_ & told & Hn & Hr).
  pose proof (remove_observer_spec o w) as Hrem.
  rewrite Hnone in *. cbn [run_updates list_remove fst snd] in *.
  rewrite Hfst in Hr. cbn in Hr.
  assert (Hkeep : _observers (assigned f (STORE (heap w))) = [])
    by (destruct f; exact Hnone).
  rewrite Hkeep in Hr. subst told. rewrite app_nil_r in Hn.
  repeat split; try assumption. apply Hrem.
Qed.


(** ** Registration *)

(** X6.  [remove_observer] right after [add_observer] of the same observer
    never raises; and when the observer was not registered before, the two
    calls leave the store, the surroundings and the list of observers told
    exactly as they were. *)
Theorem add_then_remove_observer o w :
  fst (remove_observer o (snd (add_observer o w))) = Returned tt
  /\ (~ In o (_observers (STORE (heap w))) ->
      heap (snd (remove_observer o (snd (add_observer o w)))) = heap w).
Proof.
  destruct (add_observer_spec o w) as (_ & Hheap).
  pose proof (remove_observer_spec o (snd (add_observer o w))) as Hrem.
  rewrite Hheap in Hrem. cbn [STORE notified surroundings with_observers _observers] in Hrem.
  destruct (list_remove o (_observers (STORE (heap w)) ++ [o])) as [rest |] eqn:Hlr.
  - destruct Hrem as (Hret & Hheap2). split; [exact Hret |].
    intros Hnew. rewrite (list_remove_first o _ [] Hnew), app_nil_r in Hlr.
    injection Hlr as <-. rewrite Hheap2.
    destruct (heap w) as [[obs scan web] env told]. reflexivity.
  - exfalso. apply list_remove_absent in Hlr. apply Hlr, in_or_app. right. now left.
Qed.
End StoreWorlds.

(** ** The data store on concrete observers, continued *)

Section StoreWorldsExamples.
Import scenario.

(** A store right after start-up has no observer. *)
Lemma store_without_observers_witness :
  _observers (STORE (heap (scenario.boot []))) = []
  /\ fst (flag_set (SetWebServerIsRunning true) (scenario.boot [])) = Returned tt
  /\ fst (remove_observer 3 (scenario.boot [])) = Raised ValueError.
Proof.
  split; [reflexivity |].
  destruct (store_without_observers (SetWebServerIsRunning true) 3 (scenario.boot [])
              eq_refl) as (Hset & _ & _ & Hrem).
  split; assumption.
Defined.

End StoreWorldsExamples.

(** ** The [Timer] context manager, used again *)

Section TimerReuse.
Context {H A : Type}.
Implicit Types (body : Timer -> M H A) (w : World H) (t : Timer).

(** X11.  [__exit__] raises exactly on a timer that was never entered, and
    then an [AttributeError] for [start].  A block on a timer used before
    works as on a new one: inside the block the timer has the new start and
    still shows the end and the elapsed time of the earlier block; on exit
    all of them are replaced by values computed from the two new clock
    readings, and the outcome is that of the body. *)
Theorem timer_exit_and_reuse body t w :
  ((exists e, fst (@__exit__ H t w) = Raised e) <-> start t = None)
  /\ (forall e, fst (@__exit__ H t w) = Raised e -> e = AttributeError "start")
  /\ exists r w2,
       body {| start := Some (clock w (ticks w)); end_ := end_ t;
               elapsed_in_milli := elapsed_in_milli t;
               elapsed_in_milli_as_str := elapsed_in_milli_as_str t |}
            (snd (time w)) = (r, w2)
       /\ with_as t body w
          = (r,
             {| start := Some (clock w (ticks w));
                end_ := Some (clock w2 (ticks w2));
                elapsed_in_milli
                := Some ((clock w2 (ticks w2) - clock w (ticks w)) * 1000)%float;
                elapsed_in_milli_as_str
                := Some (format_0_3f ((clock w2 (ticks w2) - clock w (ticks w)) * 1000)%float) |},
             snd (time w2)).
Proof.
  split; [| split].
  - unfold __exit__, bind, time, raise, ret. cbn.
    destruct (start t) as [s0 |]; cbn; split.
    + intros (e & He). discriminate.
    + discriminate.
    + reflexivity.
    + intros _. now eexists.
  - intros e. unfold __exit__, bind, time, raise, ret. cbn.
    destruct (start t) as [s0 |]; cbn; [discriminate | now intros [= <-]].
  - unfold with_as, __enter__, __exit__, bind, time, ret. cbn.
    destruct (body _ _) as [r w2]. exists r, w2. split; reflexivity.
Qed.

(** A block on a new timer is the case [with_as Timer_new]. *)
Lemma with_Timer_is_with_as body w : with_Timer body w = with_as Timer_new body w.
Proof. reflexivity. Qed.
End TimerReuse.

(** ** Images, continued *)

Section ImageRuns.
Implicit Types (img : Image) (l : list ImageAssign).

(** X12.  The representation of an image raises [IndexError], and nothing
    else, exactly when its array has fewer than two dimensions; with two or
    more it returns a text. *)
Theorem repr_needs_two_dimensions img :
  ((exists e, __repr__ img = Raised e) <-> List.length (shape (_data img)) < 2)
  /\ (forall e, __repr__ img = Raised e -> e = IndexError)
  /\ ((exists text, __repr__ img = Returned text) <-> 2 <= List.length (shape (_data img))).
Proof.
  unfold __repr__, shape_item.
  destruct (shape (_data img)) as [| h [| w' rest]]; cbn [nth_error List.length].
  - split; [split; [lia | intros _; now eexists] |].
    split; [intros e [= <-]; reflexivity |].
    split; [intros (text & Htext); discriminate | lia].
  - split; [split; [lia | intros _; now eexists] |].
    split; [intros e [= <-]; reflexivity |].
    split; [intros (text & Htext); discriminate | lia].
  - split; [split; [intros (e & He); discriminate | lia] |].
    split; [intros e He; discriminate |].
    split; [lia | intros _; now eexists].
Qed.

(** X13.  After any run of assignments to the properties of an image, each
    getter returns the value assigned last to its property (or the one the
    image had, when none was assigned), and the two predicates answer for
    these values: [needs_debayering()] for the bayer pattern assigned last,
    [is_color()] for the data assigned last; assignments to the origin count
    for neither and change no other property. *)
Theorem image_predicates_follow_the_last_assignment l : forall img,
  bayer_pattern (fold_left image_assign l img) = last_bayer_pattern (bayer_pattern img) l
  /\ data (fold_left image_assign l img) = last_data (data img) l
  /\ origin (fold_left image_assign l img) = last_origin (origin img) l
  /\ needs_debayering (fold_left image_assign l img)
     = match last_bayer_pattern (bayer_pattern img) l with
       | None => false
       | Some _ => true
       end
  /\ is_color (fold_left image_assign l img)
     = Nat.ltb 2 (List.length (shape (last_data (data img) l))).
Proof.
  induction l as [| a l IH]; intros img;
    cbn [fold_left last_bayer_pattern last_data last_origin].
  - repeat split.
  - destruct (IH (image_assign img a)) as (Hp & Hd & Ho & Hn & Hc).
    rewrite Hp, Hd, Ho, Hn, Hc. destruct a; repeat split.
Qed.
End ImageRuns.


(** * The code with str() that can raise and observers that call back *)

(** ** The [log] decorator *)

Section LiveLogProperties.
Context {H Args Kwargs Val : Type}.
Context {str_args : live.HasStr Args} {str_kwargs : live.HasStr Kwargs}
        {str_val : live.HasStr Val}.
Implicit Types (func : live.PyFunction H Args Kwargs Val) (w : World H).

(** The wrapper, read off its body, once its arguments are printed. *)
Lemma live_wrapped_unfold func args kwargs w (s_args s_kwargs : string) :
  live.__str__ args = Returned s_args ->
  live.__str__ kwargs = Returned s_kwargs ->
  live.wrapped func args kwargs w
  = match live.__call__ func args kwargs (live.world_at_call func s_args s_kwargs w) with
    | Some (Returned result, w') =>
        match live.__str__ result with
        | Returned s_result =>
            Some (Returned result,
                  live.world_at_return func s_result (clock w (ticks w)) w')
        | Raised e => Some (Raised e, snd (time w'))
        end
    | Some (Raised e, w') => Some (Raised e, w')
    | None => None
    end.
Proof.
  intros Hargs Hkwargs.
  unfold live.wrapped, live.bind, live.evaluated, live.step, live.ret.
  rewrite Hargs, Hkwargs. cbn.
  unfold live.world_at_call, live.world_at_return, code_utilities.bind, logger_debug, time.
  cbn.
  destruct (live.__call__ func args kwargs _) as [[[result | e] w'] |]; [| reflexivity ..].
  cbn. destruct (live.__str__ result); reflexivity.
Qed.

(** When an argument does not print, the wrapped callable is not called. *)
Lemma live_wrapped_arguments_do_not_print func args kwargs w (e : exn) :
  live.__str__ args = Raised e ->
  live.wrapped func args kwargs w = Some (Raised e, w).
Proof.
  intros Hargs. unfold live.wrapped, live.bind, live.evaluated. now rewrite Hargs.
Qed.

(** C4, as amended.  On an input whose arguments and keyword arguments
    [str()] prints, the callable that [log] returns writes its "called"
    record and calls the wrapped callable.  When that raises, the very same
    exception comes out and the world is left as the wrapped callable left
    it: no "returned" record.  When it returns a value that [str()] prints,
    the same value comes out, after the "returned" record.  When it returns
    a value on which [str()] raises, that exception comes out instead of the
    value, and no "returned" record is written.  (And a wrapped callable
    that has no result leaves the wrapper without one.) *)
Theorem log_returns_or_reraises_when_str_does func args kwargs w (s_args s_kwargs : string) :
  live.__str__ args = Returned s_args ->
  live.__str__ kwargs = Returned s_kwargs ->
  records (live.world_at_call func s_args s_kwargs w)
  = (records w ++ [{| name := live.__module__ func; levelname := "DEBUG";
                      msg := live.called_text (live.__qualname__ func) s_args s_kwargs |}])%list
  /\ match live.__call__ func args kwargs (live.world_at_call func s_args s_kwargs w) with
     | Some (Returned result, w') =>
         match live.__str__ result with
         | Returned s_result =>
             exists w'',
               live.__call__ (live.log func) args kwargs w = Some (Returned result, w'')
               /\ heap w'' = heap w'
               /\ records w''
                  = (records w'
                     ++ [{| name := live.__module__ func; levelname := "DEBUG";
                            msg := live.returned_text (live.__qualname__ func) s_result
                                     (clock w (ticks w)) (clock w' (ticks w')) |}])%list
         | Raised e =>
             exists w'',
               live.__call__ (live.log func) args kwargs w = Some (Raised e, w'')
               /\ heap w'' = heap w' /\ records w'' = records w'
         end
     | Some (Raised e, w') =>
         live.__call__ (live.log func) args kwargs w = Some (Raised e, w')
     | None => live.__call__ (live.log func) args kwargs w = None
     end.
Proof.
  intros Hargs Hkwargs. split; [reflexivity |].
  cbn [live.log live.__call__].
  rewrite (live_wrapped_unfold func args kwargs w s_args s_kwargs Hargs Hkwargs).
  destruct (live.__call__ func args kwargs _) as [[[result | e] w'] |]; [| reflexivity ..].
  destruct (live.__str__ result) as [s_result | e].
  - eexists. split; [reflexivity |]. split; reflexivity.
  - eexists. split; [reflexivity |]. split; reflexivity.
Qed.
End LiveLogProperties.

Section LiveLogExamples.
Import live callers.

(** A function that returns the image of a one-dimensional array returns
    normally, and its decorated form raises the [IndexError] of
    [Image.__repr__]; a function given such an image is not even called by
    its decorated form, which raises the same. *)
Lemma log_raises_on_an_image_that_does_not_print :
  (exists w',
      live.__call__ returns_a_row live.no_args no_kwargs
        (live.world_at_call returns_a_row "()" "{}" (scenario.bare [1%float; 2.5%float]))
      = Some (Returned a_row, w'))
  /\ (exists w'',
        live.__call__ (live.log returns_a_row) live.no_args no_kwargs
          (scenario.bare [1%float; 2.5%float])
        = Some (Raised IndexError, w'')
        /\ List.length (records w'') = 1)
  /\ live.__call__ takes_an_image a_row no_kwargs (scenario.bare []) = Some (Returned false, scenario.bare [])
  /\ live.__call__ (live.log takes_an_image) a_row no_kwargs (scenario.bare [])
     = Some (Raised IndexError, scenario.bare []).
Proof.
  split; [eexists; reflexivity |].
  split; [eexists; split; [vm_compute; reflexivity | reflexivity] |].
  split; reflexivity.
Qed.

(** A function that answers, on arguments that print. *)
Lemma log_returns_or_reraises_when_str_does_witness :
  live.__str__ live.no_args = Returned "()"
  /\ live.__str__ no_kwargs = Returned "{}"
  /\ exists w'',
       live.__call__
         (live.log {| live.__qualname__ := "answering"; live.__module__ := "tests";
                      live.__call__ := fun (_ : live.NoArgs) (_ : NoKwargs) => live.ret true |})
         live.no_args no_kwargs (scenario.bare [1%float; 2.5%float])
       = Some (Returned true, w'')
       /\ map msg (records w'')
          = ["answering() called with : () - {}"; "answering() returned True in 1500.000 ms"].
Proof.
  split; [reflexivity |]. split; [reflexivity |].
  pose proof (log_returns_or_reraises_when_str_does
                {| live.__qualname__ := "answering"; live.__module__ := "tests";
                   live.__call__ := fun (_ : live.NoArgs) (_ : NoKwargs) => live.ret true |}
                live.no_args no_kwargs (scenario.bare [1%float; 2.5%float]) "()" "{}"
                eq_refl eq_refl) as (_ & w'' & Hcall & _ & Hrecords).
  exists w''. split; [exact Hcall |].
  rewrite Hrecords. vm_compute. reflexivity.
Defined.
End LiveLogExamples.

(** ** The data store *)

Section LiveStoreProperties.
Context {Observer Env : Type} {registered : live.Registered Observer}.
Context (update : Observer -> live.P (Heap Observer Env) unit).
Implicit Types (w : World (Heap Observer Env)) (o : Observer) (l : list Observer).
Implicit Types (b : bool) (fuel i : nat).

Lemma skipn_nth_error_Some l : forall i o,
  nth_error l i = Some o -> skipn i l = o :: skipn (S i) l.
Proof.
  induction l as [| x l IH]; intros [| i] o Hnth; try discriminate.
  - now injection Hnth as ->.
  - cbn in Hnth. apply IH in Hnth. exact Hnth.
Qed.

Lemma skipn_nth_error_None l : forall i, nth_error l i = None -> skipn i l = [].
Proof.
  intros i Hnth. apply skipn_all2. now apply nth_error_None.
Qed.

(** The pass, when the observers in the list keep off the store: by
    induction on the fuel, which the positions left to visit do not
    exhaust. *)
Lemma live_for_observer_in_spec : forall fuel i w,
  (forall o, In o (_observers (STORE (heap w))) -> keeps_off_the_store update o) ->
  List.length (_observers (STORE (heap w))) - i < fuel ->
  exists r w',
    live.for_observer_in update fuel i w = Some (r, w')
    /\ STORE (heap w') = STORE (heap w)
    /\ exists told,
         notified (heap w') = (notified (heap w) ++ told)%list
         /\ live_pass_ends update (_observers (STORE (heap w))) i r told.
Proof.
  induction fuel as [| fuel IH]; intros i w Hoff Hfuel; [lia |].
  cbn [live.for_observer_in].
  destruct (nth_error (_observers (STORE (heap w))) i) as [o |] eqn:Hnth.
  - unfold live.bind, live.call_update.
    set (w1 := {| heap := _ |}).
    destruct (Hoff o (nth_error_In _ _ Hnth) w1) as (r1 & w2 & Hupd & Hs2 & Hn2).
    rewrite Hupd. change (STORE (heap w1)) with (STORE (heap w)) in Hs2.
    change (notified (heap w1)) with (notified (heap w) ++ [o])%list in Hn2.
    pose proof (skipn_nth_error_Some _ _ _ Hnth) as Hskip.
    destruct r1 as [[] | e].
    + assert (Hlt : i < List.length (_observers (STORE (heap w))))
        by (apply nth_error_Some; congruence).
      destruct (IH (S i) w2) as (r & w' & Hrun & Hs & told & Hn & Hends).
      { now rewrite Hs2. }
      { rewrite Hs2. lia. }
      exists r, w'. split; [exact Hrun |]. split; [congruence |].
      exists (o :: told). split.
      * rewrite Hn, Hn2, <- app_assoc. reflexivity.
      * rewrite Hs2 in Hends. destruct r as [[] | e]; cbn in *.
        -- now rewrite Hskip, Hends.
        -- destruct Hends as (l1 & o' & l2 & wa & wb & Hsplit & -> & Hraised).
           exists (o :: l1), o', l2, wa, wb. rewrite Hskip, Hsplit.
           split; [reflexivity |]. split; [reflexivity | exact Hraised].
    + exists (Raised e), w2. split; [reflexivity |]. split; [exact Hs2 |].
      exists [o]. split; [exact Hn2 |].
      exists [], o, (skipn (S i) (_observers (STORE (heap w)))), w1, w2.
      split; [exact Hskip |]. split; [reflexivity | exact Hupd].
  - exists (Returned tt), w. split; [reflexivity |]. split; [reflexivity |].
    exists []. split; [now rewrite app_nil_r |].
    cbn. now rewrite skipn_nth_error_None.
Qed.

(** [self._notify_observers()], wrapper included. *)
Lemma live_notify_observers_spec fuel w :
  (forall o, In o (_observers (STORE (heap w))) -> keeps_off_the_store update o) ->
  List.length (_observers (STORE (heap w))) < fuel ->
  exists r w',
    live.__call__ (live._notify_observers update fuel) self no_kwargs w = Some (r, w')
    /\ STORE (heap w') = STORE (heap w)
    /\ exists told,
         notified (heap w') = (notified (heap w) ++ told)%list
         /\ live_pass_ends update (_observers (STORE (heap w))) 0 r told.
Proof.
  intros Hoff Hfuel.
  unfold live._notify_observers. cbn [live.log live.__call__].
  erewrite live_wrapped_unfold by reflexivity. cbn [live.__call__].
  set (w0 := live.world_at_call _ _ _ w).
  destruct (live_for_observer_in_spec fuel 0 w0) as (r & w1 & Hrun & Hs & told & Hn & Hends);
    [exact Hoff | change (heap w0) with (heap w); lia |].
  rewrite Hrun. change (heap w0) with (heap w) in *.
  destruct r as [[] | e].
  - eexists _, _. split; [reflexivity |]. split; [exact Hs |].
    exists told. split; [exact Hn | exact Hends].
  - eexists _, _. split; [reflexivity |]. split; [exact Hs |].
    exists told. split; [exact Hn | exact Hends].
Qed.
(** A flag assignment: the attribute is written, then the pass runs. *)
Ltac live_setter_spec fuel w Hoff Hfuel :=
  cbn [live.log live.__call__]; erewrite live_wrapped_unfold by reflexivity;
  cbn [live.__call__];
  unfold live.bind at 1; unfold live.update_store, live.step; cbn [fst snd];
  match goal with
  | |- context [live.__call__ (live._notify_observers update fuel) self no_kwargs ?w1] =>
      destruct (live_notify_observers_spec fuel w1 Hoff Hfuel)
        as (r & w2 & Hrun & Hs & told & Hn & Hends);
      rewrite Hrun; exists r;
      destruct r as [[] | e];
        (eexists; split; [reflexivity |]; split; [exact Hs |];
         exists told; split; [exact Hn | exact Hends])
  end.

Lemma live_set_scan_in_progress_spec fuel b w :
  (forall o, In o (_observers (STORE (heap w))) -> keeps_off_the_store update o) ->
  List.length (_observers (STORE (heap w))) < fuel ->
  exists r w',
    live.set_scan_in_progress update fuel b w = Some (r, w')
    /\ STORE (heap w') = with_scan_in_progress b (STORE (heap w))
    /\ exists told,
         notified (heap w') = (notified (heap w) ++ told)%list
         /\ live_pass_ends update (_observers (STORE (heap w))) 0 r told.
Proof.
  intros Hoff Hfuel.
  unfold live.set_scan_in_progress, live.scan_in_progress_fset.
  live_setter_spec fuel w Hoff Hfuel.
Qed.

Lemma live_set_web_server_is_running_spec fuel b w :
  (forall o, In o (_observers (STORE (heap w))) -> keeps_off_the_store update o) ->
  List.length (_observers (STORE (heap w))) < fuel ->
  exists r w',
    live.set_web_server_is_running update fuel b w = Some (r, w')
    /\ STORE (heap w') = with_web_server_is_running b (STORE (heap w))
    /\ exists told,
         notified (heap w') = (notified (heap w) ++ told)%list
         /\ live_pass_ends update (_observers (STORE (heap w))) 0 r told.
Proof.
  intros Hoff Hfuel.
  unfold live.set_web_server_is_running, live.web_server_is_running_fset.
  live_setter_spec fuel w Hoff Hfuel.
Qed.
(** Printing the arguments of a registration call is printing the observer. *)
Lemma str_of_registration_arguments o :
  @live.__str__ (Self * Observer) live.str_of_self_observer (self, o)
  = match live.repr_observer o with
    | Returned r => Returned ("(" ++ live.repr_store ++ ", " ++ r ++ ")")
    | Raised e => Raised e
    end.
Proof. reflexivity. Qed.

(** [add_observer] and [remove_observer], wrapper included.  Each starts by
    printing its arguments for the log: when the observer does not print,
    the call raises before anything is done. *)
Lemma live_add_observer_spec o w :
  match live.repr_observer o with
  | Returned _ =>
      exists w',
        live.add_observer o w = Some (Returned tt, w')
        /\ heap w' = {| STORE := with_observers (_observers (STORE (heap w)) ++ [o])
                                   (STORE (heap w));
                        surroundings := surroundings (heap w);
                        notified := notified (heap w) |}
  | Raised e => live.add_observer o w = Some (Raised e, w)
  end.
Proof.
  unfold live.add_observer, live.add_observer_def. cbn [live.log live.__call__].
  pose proof (str_of_registration_arguments o) as Hstr.
  destruct (live.repr_observer o) as [r | e].
  - erewrite live_wrapped_unfold by (exact Hstr || reflexivity).
    cbn. eexists. split; reflexivity.
  - now apply live_wrapped_arguments_do_not_print.
Qed.

Lemma live_remove_observer_spec o w :
  match live.repr_observer o with
  | Returned _ =>
      match live.list_remove o (_observers (STORE (heap w))) with
      | Some rest =>
          exists w',
            live.remove_observer o w = Some (Returned tt, w')
            /\ heap w' = {| STORE := with_observers rest (STORE (heap w));
                            surroundings := surroundings (heap w);
                            notified := notified (heap w) |}
      | None =>
          exists w',
            live.remove_observer o w = Some (Raised ValueError, w') /\ heap w' = heap w
      end
  | Raised e => live.remove_observer o w = Some (Raised e, w)
  end.
Proof.
  unfold live.remove_observer, live.remove_observer_def. cbn [live.log live.__call__].
  pose proof (str_of_registration_arguments o) as Hstr.
  destruct (live.repr_observer o) as [r | e].
  - erewrite live_wrapped_unfold by (exact Hstr || reflexivity).
    cbn [live.__call__ snd]. unfold live.bind, live.read_store.
    change (heap (live.world_at_call _ _ _ w)) with (heap w).
    destruct (live.list_remove o _) as [rest |]; cbn; eexists; split; reflexivity.
  - now apply live_wrapped_arguments_do_not_print.
Qed.

(** C1, as amended.  Take an assignment to [scan_in_progress] or to
    [web_server_is_running] made while the observers in the list keep off
    the store during their update (none adds or removes an observer or
    assigns a flag).  It has a result, and the flag then holds the new value,
    whatever the old one was; and when it returns normally, that is when no
    update raises, the observers told to update during the call are exactly
    the entries of the list, each entry once, in list order. *)
Theorem flag_assignment_tells_every_entry_once fuel b w :
  (forall o, In o (_observers (STORE (heap w))) -> keeps_off_the_store update o) ->
  List.length (_observers (STORE (heap w))) < fuel ->
  (exists r w',
      live.set_scan_in_progress update fuel b w = Some (r, w')
      /\ _scan_in_progress (STORE (heap w')) = b
      /\ (r = Returned tt -> notified_since w w' = _observers (STORE (heap w))))
  /\ (exists r w',
        live.set_web_server_is_running update fuel b w = Some (r, w')
        /\ _web_server_is_running (STORE (heap w')) = b
        /\ (r = Returned tt -> notified_since w w' = _observers (STORE (heap w)))).
Proof.
  intros Hoff Hfuel. split.
  - destruct (live_set_scan_in_progress_spec fuel b w Hoff Hfuel)
      as (r & w' & Hrun & Hs & told & Hn & Hends).
    exists r, w'. split; [exact Hrun |]. split; [now rewrite Hs |].
    intros ->. rewrite (notified_since_app _ _ _ Hn). exact Hends.
  - destruct (live_set_web_server_is_running_spec fuel b w Hoff Hfuel)
      as (r & w' & Hrun & Hs & told & Hn & Hends).
    exists r, w'. split; [exact Hrun |]. split; [now rewrite Hs |].
    intros ->. rewrite (notified_since_app _ _ _ Hn). exact Hends.
Qed.

(** C10, as amended.  While the observers in the list keep off the store
    during their update, an assignment to [scan_in_progress] has a result
    and leaves [web_server_is_running] and the observer list as they were,
    and an assignment to [web_server_is_running] has a result and leaves
    [scan_in_progress] and the observer list as they were.  [add_observer]
    and [remove_observer] always have a result and leave both flags as they
    were.  All of this whether the operation returns or raises. *)
Theorem store_operations_write_their_own_attribute_only fuel b o w :
  (forall o', In o' (_observers (STORE (heap w))) -> keeps_off_the_store update o') ->
  List.length (_observers (STORE (heap w))) < fuel ->
  (exists r w',
      live.set_scan_in_progress update fuel b w = Some (r, w')
      /\ _web_server_is_running (STORE (heap w')) = _web_server_is_running (STORE (heap w))
      /\ _observers (STORE (heap w')) = _observers (STORE (heap w)))
  /\ (exists r w',
        live.set_web_server_is_running update fuel b w = Some (r, w')
        /\ _scan_in_progress (STORE (heap w')) = _scan_in_progress (STORE (heap w))
        /\ _observers (STORE (heap w')) = _observers (STORE (heap w)))
  /\ (exists r w',
        live.add_observer o w = Some (r, w')
        /\ _scan_in_progress (STORE (heap w')) = _scan_in_progress (STORE (heap w))
        /\ _web_server_is_running (STORE (heap w'))
           = _web_server_is_running (STORE (heap w)))
  /\ (exists r w',
        live.remove_observer o w = Some (r, w')
        /\ _scan_in_progress (STORE (heap w')) = _scan_in_progress (STORE (heap w))
        /\ _web_server_is_running (STORE (heap w'))
           = _web_server_is_running (STORE (heap w))).
Proof.
  intros Hoff Hfuel. split; [| split; [| split]].
  - destruct (live_set_scan_in_progress_spec fuel b w Hoff Hfuel)
      as (r & w' & Hrun & Hs & _).
    exists r, w'. rewrite Hs. repeat split. exact Hrun.
  - destruct (live_set_web_server_is_running_spec fuel b w Hoff Hfuel)
      as (r & w' & Hrun & Hs & _).
    exists r, w'. rewrite Hs. repeat split. exact Hrun.
  - pose proof (live_add_observer_spec o w) as Hadd.
    destruct (live.repr_observer o) as [text | e].
    + destruct Hadd as (w' & Hrun & Hheap). exists (Returned tt), w'.
      rewrite Hheap. repeat split. exact Hrun.
    + exists (Raised e), w. repeat split. exact Hadd.
  - pose proof (live_remove_observer_spec o w) as Hrem.
    destruct (live.repr_observer o) as [text | e].
    + destruct (live.list_remove o (_observers (STORE (heap w)))) as [rest |];
        destruct Hrem as (w' & Hrun & Hheap); eexists _, w';
        rewrite Hheap; repeat split; exact Hrun.
    + exists (Raised e), w. repeat split. exact Hrem.
Qed.
End LiveStoreProperties.

(** ** The data store on observers that call back *)

Section LiveStoreExamples.
Import live callers.

(** An observer that reads the flag back through the getter keeps off the
    store. *)
Lemma rereads_keeps_off_the_store (o : nat) : keeps_off_the_store rereads o.
Proof. intros w. eexists _, _. split; [reflexivity |]. split; reflexivity. Qed.

(** The second of three observers fails: the assignment raises and the
    third is never told.  The first of three observers takes itself off the
    list: the assignment returns normally and the second, which was in the
    list when the assignment was made, is never told. *)
Lemma a_pass_cut_short_or_shifted :
  (exists w',
      live.set_scan_in_progress misbehaves 10 true (boot [2; 0; 3])
      = Some (Raised scenario.RuntimeError, w')
      /\ notified_since (boot [2; 0; 3]) w' = [2; 0]
      /\ In 3 (_observers (STORE (heap (boot [2; 0; 3])))))
  /\ (exists w',
        live.set_scan_in_progress misbehaves 10 true (boot [1; 2; 3]) = Some (Returned tt, w')
        /\ notified_since (boot [1; 2; 3]) w' = [1; 3]
        /\ In 2 (_observers (STORE (heap (boot [1; 2; 3]))))).
Proof.
  split; eexists; (split; [vm_compute; reflexivity |]); split;
    [reflexivity | cbn; tauto | reflexivity | cbn; tauto].
Qed.

(** Three entries, two of them the same observer, all reading the flag
    back, and a value equal to the current one: the three are told in list
    order. *)
Lemma flag_assignment_tells_every_entry_once_witness :
  (forall o, In o (_observers (STORE (heap (boot [1; 2; 1])))) ->
             keeps_off_the_store rereads o)
  /\ List.length (_observers (STORE (heap (boot [1; 2; 1])))) < 4
  /\ exists w',
       live.set_scan_in_progress rereads 4 false (boot [1; 2; 1]) = Some (Returned tt, w')
       /\ _scan_in_progress (STORE (heap w')) = false
       /\ notified_since (boot [1; 2; 1]) w' = [1; 2; 1].
Proof.
  assert (Hoff : forall o, In o (_observers (STORE (heap (boot [1; 2; 1])))) ->
                           keeps_off_the_store rereads o)
    by (intros o _; apply rereads_keeps_off_the_store).
  assert (Hfuel : List.length (_observers (STORE (heap (boot [1; 2; 1])))) < 4)
    by (cbn; lia).
  split; [exact Hoff |]. split; [exact Hfuel |].
  destruct (proj1 (flag_assignment_tells_every_entry_once rereads 4 false (boot [1; 2; 1])
                     Hoff Hfuel)) as (r & w' & Hrun & Hflag & Htold).
  assert (Hreturned : exists w0,
             live.set_scan_in_progress rereads 4 false (boot [1; 2; 1])
             = Some (Returned tt, w0))
    by (eexists; vm_compute; reflexivity).
  destruct Hreturned as (w0 & Hw0). rewrite Hw0 in Hrun. injection Hrun as <- <-.
  exists w0. split; [exact Hw0 |]. split; [exact Hflag | exact (Htold eq_refl)].
Defined.

(** The first of three observers takes itself off the list during the
    pass: after the assignment to [scan_in_progress] the observer list is not
    what it was. *)
Lemma a_leaving_observer_changes_the_list :
  exists w',
    live.set_scan_in_progress misbehaves 10 true (boot [1; 2; 3]) = Some (Returned tt, w')
    /\ _observers (STORE (heap (boot [1; 2; 3]))) = [1; 2; 3]
    /\ _observers (STORE (heap w')) = [2; 3].
Proof. eexists. split; [vm_compute; reflexivity |]. split; reflexivity. Qed.

Lemma store_operations_write_their_own_attribute_only_witness :
  (forall o, In o (_observers (STORE (heap (boot [2; 3])))) -> keeps_off_the_store rereads o)
  /\ List.length (_observers (STORE (heap (boot [2; 3])))) < 3
  /\ exists r w',
       live.set_scan_in_progress rereads 3 true (boot [2; 3]) = Some (r, w')
       /\ _web_server_is_running (STORE (heap w')) = false
       /\ _observers (STORE (heap w')) = [2; 3].
Proof.
  assert (Hoff : forall o, In o (_observers (STORE (heap (boot [2; 3])))) ->
                           keeps_off_the_store rereads o)
    by (intros o _; apply rereads_keeps_off_the_store).
  assert (Hfuel : List.length (_observers (STORE (heap (boot [2; 3])))) < 3)
    by (cbn; lia).
  split; [exact Hoff |]. split; [exact Hfuel |].
  exact (proj1 (store_operations_write_their_own_attribute_only rereads 3 true 0
                  (boot [2; 3]) Hoff Hfuel)).
Defined.
End LiveStoreExamples.

(** ** More of the data store, with observers that call back *)

Section LiveStoreMore.
Context {Observer Env : Type} {registered : live.Registered Observer}.
Context (update : Observer -> live.P (Heap Observer Env) unit).
Implicit Types (w : World (Heap Observer Env)) (o : Observer) (l : list Observer).
Implicit Types (b : bool) (fuel i : nat) (f : FlagSet).

Lemma live_flag_set_spec fuel f w :
  (forall o, In o (_observers (STORE (heap w))) -> keeps_off_the_store update o) ->
  List.length (_observers (STORE (heap w))) < fuel ->
  exists r w',
    live_flag_set update fuel f w = Some (r, w')
    /\ STORE (heap w') = assigned f (STORE (heap w))
    /\ exists told,
         notified (heap w') = (notified (heap w) ++ told)%list
         /\ live_pass_ends update (_observers (STORE (heap w))) 0 r told.
Proof.
  destruct f as [b | b]; cbn [live_flag_set assigned].
  - apply live_set_scan_in_progress_spec.
  - apply live_set_web_server_is_running_spec.
Qed.

(** A pass over an unchanged list tells nobody outside the list. *)
Lemma live_pass_ends_incl l (r : outcome unit) (told : list Observer) :
  live_pass_ends update l 0 r told -> incl told l.
Proof.
  destruct r as [[] | e]; cbn.
  - intros ->. apply incl_refl.
  - intros (l1 & o & l2 & wa & wb & -> & -> & _) x Hx.
    apply in_app_or in Hx. apply in_or_app.
    destruct Hx as [Hx | [<- | []]]; [now left | right; now left].
Qed.

(** Reading a flag, wrapper included. *)
Lemma live_getters_spec w :
  (exists w',
      live.get_scan_in_progress w = Some (Returned (_scan_in_progress (STORE (heap w))), w')
      /\ heap w' = heap w)
  /\ (exists w',
        live.get_web_server_is_running w
        = Some (Returned (_web_server_is_running (STORE (heap w))), w')
        /\ heap w' = heap w).
Proof.
  unfold live.get_scan_in_progress, live.scan_in_progress_fget,
    live.get_web_server_is_running, live.web_server_is_running_fget.
  cbn [live.log live.__call__].
  split; erewrite live_wrapped_unfold by reflexivity; cbn; eexists; split; reflexivity.
Qed.

(** [list.remove], once more: it fails exactly on a list without the item,
    and otherwise drops the first occurrence and nothing else. *)
Lemma live_list_remove_spec o : forall l,
  match live.list_remove o l with
  | Some rest =>
      exists l1 l2, l = (l1 ++ o :: l2)%list /\ ~ In o l1 /\ rest = (l1 ++ l2)%list
  | None => ~ In o l
  end.
Proof.
  induction l as [| y l IH]; cbn; [tauto |].
  destruct (live.observer_eq_dec y o) as [-> | Hne].
  - exists [], l. repeat split. tauto.
  - destruct (live.list_remove o l) as [rest |]; cbn.
    + destruct IH as (l1 & l2 & -> & Hfirst & ->).
      exists (y :: l1), l2. repeat split. intros [Heq | Hin]; [now apply Hne | now apply Hfirst].
    + intros [Heq | Hin]; [now apply Hne | now apply IH].
Qed.

Lemma live_list_remove_count o x l (rest : list Observer) :
  live.list_remove o l = Some rest ->
  count_occ live.observer_eq_dec rest x
  = if live.observer_eq_dec x o
    then pred (count_occ live.observer_eq_dec l x)
    else count_occ live.observer_eq_dec l x.
Proof.
  intros Hrem. pose proof (live_list_remove_spec o l) as Hspec. rewrite Hrem in Hspec.
  destruct Hspec as (l1 & l2 & -> & Hfirst & ->).
  rewrite !count_occ_app. cbn [count_occ].
  destruct (live.observer_eq_dec x o) as [-> | Hne].
  - destruct (live.observer_eq_dec o o); [| congruence].
    rewrite Nat.add_succ_r. reflexivity.
  - destruct (live.observer_eq_dec o x); [congruence | reflexivity].
Qed.
(** X5.  [add_observer] has a result whatever the observers do.  When the
    observer prints, it returns, the observer is at the end of the list (also
    when it was in the list already) and nobody has been told; a flag
    assignment made next, while the observers then in the list keep off the
    store, tells, if it returns normally, the observers that were there
    before, in their order, and then the new one.  When the observer does not
    print, [add_observer] raises what printing raised and changes nothing. *)
Theorem a_new_observer_is_told_last o f fuel w :
  (forall text, live.repr_observer o = Returned text ->
     exists w1,
       live.add_observer o w = Some (Returned tt, w1)
       /\ _observers (STORE (heap w1)) = (_observers (STORE (heap w)) ++ [o])%list
       /\ notified (heap w1) = notified (heap w)
       /\ surroundings (heap w1) = surroundings (heap w)
       /\ ((forall o', In o' (_observers (STORE (heap w)) ++ [o]) ->
                       keeps_off_the_store update o') ->
           S (List.length (_observers (STORE (heap w)))) < fuel ->
           exists r w2,
             live_flag_set update fuel f w1 = Some (r, w2)
             /\ (r = Returned tt ->
                 notified_since w1 w2 = (_observers (STORE (heap w)) ++ [o])%list)))
  /\ (forall e, live.repr_observer o = Raised e ->
       live.add_observer o w = Some (Raised e, w)).
Proof.
  pose proof (live_add_observer_spec o w) as Hadd.
  split.
  - intros text Hprints. rewrite Hprints in Hadd. destruct Hadd as (w1 & Hrun & Hheap).
    exists w1. split; [exact Hrun |].
    assert (Hobs : _observers (STORE (heap w1)) = (_observers (STORE (heap w)) ++ [o])%list)
      by (now rewrite Hheap).
    split; [exact Hobs |]. split; [now rewrite Hheap |]. split; [now rewrite Hheap |].
    intros Hoff Hfuel.
    destruct (live_flag_set_spec fuel f w1) as (r & w2 & Hset & _ & told & Hn & Hends).
    { now rewrite Hobs. }
    { rewrite Hobs, length_app. cbn. lia. }
    exists r, w2. split; [exact Hset |].
    intros ->. rewrite (notified_since_app _ _ _ Hn). cbn in Hends. now rewrite Hends, Hobs.
  - intros e Hraises. now rewrite Hraises in Hadd.
Qed.

(** X10.  After a successful [remove_observer(o)], a flag assignment that is
    made while the observers left in the list keep off the store and that
    returns normally tells [o] once less than it had entries in the list
    before the removal, and every other observer as often as it has
    entries. *)
Theorem a_removal_takes_one_notification_away o x f fuel w w1 w2 :
  live.remove_observer o w = Some (Returned tt, w1) ->
  (forall o', In o' (_observers (STORE (heap w1))) -> keeps_off_the_store update o') ->
  List.length (_observers (STORE (heap w1))) < fuel ->
  live_flag_set update fuel f w1 = Some (Returned tt, w2) ->
  count_occ live.observer_eq_dec (notified_since w1 w2) x
  = if live.observer_eq_dec x o
    then pred (count_occ live.observer_eq_dec (_observers (STORE (heap w))) x)
    else count_occ live.observer_eq_dec (_observers (STORE (heap w))) x.
Proof.
  intros Hremoved Hoff Hfuel Hset.
  destruct (live_flag_set_spec fuel f w1 Hoff Hfuel) as (r & w2' & Hset' & _ & told & Hn & Hends).
  rewrite Hset in Hset'. injection Hset' as <- <-.
  rewrite (notified_since_app _ _ _ Hn). cbn in Hends. subst told.
  pose proof (live_remove_observer_spec o w) as Hrem.
  destruct (live.repr_observer o) as [text | e]; [| congruence].
  destruct (live.list_remove o (_observers (STORE (heap w)))) as [rest |] eqn:Hlr;
    destruct Hrem as (w1' & Hrun & Hheap); rewrite Hremoved in Hrun;
    [| discriminate].
  injection Hrun as <-. rewrite Hheap. cbn [STORE with_observers _observers].
  now apply live_list_remove_count.
Qed.

Lemma flag_assignments_told (fs : list FlagSet) : forall fuel w,
  (forall o, In o (_observers (STORE (heap w))) ->
             keeps_off_the_store update o /\ never_raises update o) ->
  List.length (_observers (STORE (heap w))) < fuel ->
  exists w',
    live_store_ops update fuel (map Assign fs) w = Some w'
    /\ _observers (STORE (heap w')) = _observers (STORE (heap w))
    /\ notified (heap w')
       = (notified (heap w)
          ++ List.concat (map (fun _ => _observers (STORE (heap w))) fs))%list.
Proof.
  induction fs as [| f fs IH]; intros fuel w Hgood Hfuel;
    cbn [map live_store_ops live_store_op List.concat].
  - exists w. split; [reflexivity |]. split; [reflexivity | now rewrite app_nil_r].
  - destruct (live_flag_set_spec fuel f w) as (r & w1 & Hset & Hs & told & Hn & Hends);
      [intros o Ho; now apply Hgood | exact Hfuel |].
    rewrite Hset. cbn [option_map snd].
    assert (Hobs : _observers (STORE (heap w1)) = _observers (STORE (heap w)))
      by (rewrite Hs; now destruct f).
    assert (Hr : r = Returned tt).
    { destruct r as [[] | e]; [reflexivity |]. exfalso.
      destruct Hends as (l1 & o & l2 & wa & wb & Hsplit & _ & Hraised). cbn in Hsplit.
      assert (Hin : In o (_observers (STORE (heap w))))
        by (rewrite Hsplit; apply in_or_app; right; now left).
      destruct (Hgood o Hin) as (_ & Hnever). apply Hnever in Hraised. discriminate. }
    subst r. cbn in Hends. subst told.
    destruct (IH fuel w1) as (w' & Hrun & Hobs' & Htold).
    { rewrite Hobs. exact Hgood. }
    { now rewrite Hobs. }
    exists w'. split; [exact Hrun |]. split; [congruence |].
    rewrite Htold, Hn, Hobs, <- app_assoc. reflexivity.
Qed.

(** X9.  When the observers in the list keep off the store and their
    updates never raise, a run of [n] flag assignments has a result, leaves
    the list as it was, and tells the whole list [n] times over, in list
    order each time. *)
Theorem flag_assignments_tell_the_list_each_time (fs : list FlagSet) fuel w :
  (forall o, In o (_observers (STORE (heap w))) ->
             keeps_off_the_store update o /\ never_raises update o) ->
  List.length (_observers (STORE (heap w))) < fuel ->
  exists w',
    live_store_ops update fuel (map Assign fs) w = Some w'
    /\ _observers (STORE (heap w')) = _observers (STORE (heap w))
    /\ notified_since w w'
       = List.concat (map (fun _ => _observers (STORE (heap w))) fs).
Proof.
  intros Hgood Hfuel.
  destruct (flag_assignments_told fs fuel w Hgood Hfuel) as (w' & Hrun & Hobs & Hn).
  exists w'. split; [exact Hrun |]. split; [exact Hobs |]. now apply notified_since_app.
Qed.
(** *** Runs of operations *)

(** A read or a registration call has a result whatever the observers do,
    and tells nobody. *)
Lemma live_store_op_other (op : StoreOp) fuel w :
  is_assignment op = false ->
  exists w1,
    live_store_op update fuel op w = Some w1
    /\ STORE (heap w1) = live_replay_op (STORE (heap w)) op
    /\ notified (heap w1) = notified (heap w).
Proof.
  destruct op as [f | | | o | o]; cbn [is_assignment live_store_op live_replay_op];
    intros Hother; try discriminate.
  - destruct (live_getters_spec w) as ((w1 & -> & Hheap) & _).
    exists w1. rewrite Hheap. repeat split.
  - destruct (live_getters_spec w) as (_ & (w1 & -> & Hheap)).
    exists w1. rewrite Hheap. repeat split.
  - pose proof (live_add_observer_spec o w) as Hadd.
    destruct (live.repr_observer o) as [text | e].
    + destruct Hadd as (w1 & -> & Hheap). exists w1. rewrite Hheap. repeat split.
    + rewrite Hadd. exists w. repeat split.
  - pose proof (live_remove_observer_spec o w) as Hrem.
    destruct (live.repr_observer o) as [text | e].
    + destruct (live.list_remove o (_observers (STORE (heap w)))) as [rest |];
        destruct Hrem as (w1 & -> & Hheap); exists w1; rewrite Hheap; repeat split.
    + rewrite Hrem. exists w. repeat split.
Qed.

Lemma live_store_op_spec (op : StoreOp) fuel w :
  (forall o, In o (_observers (STORE (heap w))) -> keeps_off_the_store update o) ->
  List.length (_observers (STORE (heap w))) < fuel ->
  exists w1,
    live_store_op update fuel op w = Some w1
    /\ STORE (heap w1) = live_replay_op (STORE (heap w)) op
    /\ exists told,
         notified (heap w1) = (notified (heap w) ++ told)%list
         /\ incl told (_observers (STORE (heap w))).
Proof.
  intros Hoff Hfuel.
  destruct (is_assignment op) eqn:Hkind.
  - destruct op as [f | | | o | o]; try discriminate. cbn [live_store_op live_replay_op].
    destruct (live_flag_set_spec fuel f w Hoff Hfuel)
      as (r & w1 & -> & Hs & told & Hn & Hends).
    exists w1. split; [reflexivity |]. split; [exact Hs |].
    exists told. split; [exact Hn | now apply live_pass_ends_incl in Hends].
  - destruct (live_store_op_other op fuel w Hkind) as (w1 & Hrun & Hs & Hn).
    exists w1. split; [exact Hrun |]. split; [exact Hs |].
    exists []. split; [now rewrite app_nil_r | apply incl_nil_l].
Qed.

(** The list after one operation: its entries were there before or are the
    one the operation adds, and it is longer by that one at most. *)
Lemma live_replay_op_bounds (s : DataStore Observer) (op : StoreOp) :
  incl (_observers (live_replay_op s op)) (_observers s ++ added [op])
  /\ List.length (_observers (live_replay_op s op))
     <= List.length (_observers s) + List.length (added [op]).
Proof.
  destruct op as [f | | | o | o]; cbn [live_replay_op added flat_map app List.length].
  - destruct f; cbn; rewrite app_nil_r; (split; [apply incl_refl | lia]).
  - rewrite app_nil_r. split; [apply incl_refl | lia].
  - rewrite app_nil_r. split; [apply incl_refl | lia].
  - destruct (live.repr_observer o); cbn.
    + rewrite length_app. cbn. split; [apply incl_refl | lia].
    + split; [apply incl_appl, incl_refl | lia].
  - rewrite app_nil_r.
    pose proof (live_list_remove_spec o (_observers s)) as Hspec.
    destruct (live.repr_observer o); [| split; [apply incl_refl | lia]].
    destruct (live.list_remove o (_observers s)) as [rest |]; cbn [with_observers _observers];
      [| split; [apply incl_refl | lia]].
    destruct Hspec as (l1 & l2 & -> & _ & ->). split.
    + intros x Hx. apply in_app_or in Hx. apply in_or_app.
      destruct Hx; [now left | right; now right].
    + rewrite !length_app. cbn. lia.
Qed.

Lemma added_cons (op : StoreOp) (ops : list (@StoreOp Observer)) :
  added (op :: ops) = (added [op] ++ added ops)%list.
Proof. unfold added. cbn [flat_map]. now rewrite app_nil_r. Qed.

Lemma live_store_ops_spec (ops : list StoreOp) : forall fuel w,
  (forall o, In o (_observers (STORE (heap w)) ++ added ops) ->
             keeps_off_the_store update o) ->
  List.length (_observers (STORE (heap w))) + List.length (added ops) < fuel ->
  exists w',
    live_store_ops update fuel ops w = Some w'
    /\ STORE (heap w') = fold_left live_replay_op ops (STORE (heap w))
    /\ exists told,
         notified (heap w') = (notified (heap w) ++ told)%list
         /\ incl told (_observers (STORE (heap w)) ++ added ops).
Proof.
  induction ops as [| op ops IH]; intros fuel w Hoff Hfuel;
    cbn [live_store_ops fold_left].
  - exists w. split; [reflexivity |]. split; [reflexivity |].
    exists []. split; [now rewrite app_nil_r | apply incl_nil_l].
  - rewrite added_cons in Hoff, Hfuel. rewrite length_app in Hfuel.
    destruct (live_store_op_spec op fuel w) as (w1 & Hrun1 & Hs1 & told1 & Hn1 & Hincl1);
      [intros o Ho; apply Hoff, in_or_app; now left | lia |].
    rewrite Hrun1.
    destruct (live_replay_op_bounds (STORE (heap w)) op) as (Hin & Hlen).
    rewrite <- Hs1 in Hin, Hlen.
    destruct (IH fuel w1) as (w' & Hrun & Hs & told & Hn & Hincl).
    { intros o Ho. apply Hoff. apply in_app_or in Ho. rewrite app_assoc.
      apply in_or_app. destruct Ho as [Ho | Ho]; [left; now apply Hin | now right]. }
    { lia. }
    exists w'. split; [exact Hrun |]. split; [now rewrite Hs, Hs1 |].
    exists (told1 ++ told)%list. split; [rewrite Hn, Hn1; now rewrite <- app_assoc |].
    rewrite added_cons. apply incl_app.
    + intros x Hx. apply in_or_app. left. now apply Hincl1.
    + intros x Hx. apply Hincl in Hx. apply in_app_or in Hx. rewrite app_assoc.
      apply in_or_app. destruct Hx as [Hx | Hx]; [left; now apply Hin | now right].
Qed.

(** X7.  Take a run of store operations (flag assignments, flag reads,
    [add_observer], [remove_observer]) during which the observers that are
    or get registered keep off the store.  The run has a result, whichever
    of its operations raise, and the attributes of the store are then those
    that the operations alone determine: an assignment writes its flag,
    [add_observer] appends, a successful [remove_observer] drops one entry,
    and a read or a registration call that raises changes nothing.  The
    entry that [remove_observer] drops is the first equal to the observer,
    the rest staying in its order; it fails exactly when there is none. *)
Theorem the_store_after_a_run (ops : list StoreOp) fuel w :
  (forall o, In o (_observers (STORE (heap w)) ++ added ops) ->
             keeps_off_the_store update o) ->
  List.length (_observers (STORE (heap w))) + List.length (added ops) < fuel ->
  (exists w',
      live_store_ops update fuel ops w = Some w'
      /\ STORE (heap w') = fold_left live_replay_op ops (STORE (heap w)))
  /\ (forall o l,
       match live.list_remove o l with
       | Some rest =>
           exists l1 l2, l = (l1 ++ o :: l2)%list /\ ~ In o l1 /\ rest = (l1 ++ l2)%list
       | None => ~ In o l
       end).
Proof.
  intros Hoff Hfuel. split.
  - destruct (live_store_ops_spec ops fuel w Hoff Hfuel) as (w' & Hrun & Hs & _).
    exists w'. split; assumption.
  - intros o l. apply live_list_remove_spec.
Qed.

(** X8.  A flag read, an [add_observer] and a [remove_observer] have a
    result and tell no observer, whatever the observers do.  And during a
    run of operations in which the observers that are or get registered keep
    off the store, no observer is told to update unless it was registered
    when the run started or the run registers it. *)
Theorem only_registered_observers_are_told (ops : list StoreOp) fuel w :
  (forall op w0, is_assignment op = false ->
     exists w1,
       live_store_op update fuel op w0 = Some w1
       /\ notified (heap w1) = notified (heap w0))
  /\ ((forall o, In o (_observers (STORE (heap w)) ++ added ops) ->
                 keeps_off_the_store update o) ->
      List.length (_observers (STORE (heap w))) + List.length (added ops) < fuel ->
      exists w',
        live_store_ops update fuel ops w = Some w'
        /\ incl (notified_since w w') (_observers (STORE (heap w)) ++ added ops)).
Proof.
  split.
  - intros op w0 Hother.
    destruct (live_store_op_other op fuel w0 Hother) as (w1 & Hrun & _ & Hn).
    exists w1. split; assumption.
  - intros Hoff Hfuel.
    destruct (live_store_ops_spec ops fuel w Hoff Hfuel) as (w' & Hrun & _ & told & Hn & Hincl).
    exists w'. split; [exact Hrun |]. now rewrite (notified_since_app _ _ _ Hn).
Qed.
(** *** What a flag assignment logs *)

(** A pass over updates that keep quiet leaves the log and the clock alone. *)
Lemma live_for_observer_in_quiet :
  (forall o, keeps_quiet update o) ->
  forall fuel i w (r : outcome unit) w',
    live.for_observer_in update fuel i w = Some (r, w') ->
    records w' = records w /\ clock w' = clock w /\ ticks w' = ticks w.
Proof.
  intros Hquiet. induction fuel as [| fuel IH]; intros i w r w'; cbn [live.for_observer_in];
    [discriminate |].
  destruct (nth_error (_observers (STORE (heap w))) i) as [o |].
  - unfold live.bind, live.call_update. set (w1 := {| heap := _ |}).
    destruct (update o w1) as [[[[] | e] w2] |] eqn:Hupd; [| | discriminate].
    + destruct (Hquiet o _ _ _ Hupd) as (Hrec & Hclock & Htick). intros Hrun.
      destruct (IH _ _ _ _ Hrun) as (-> & -> & ->). repeat split; assumption.
    + destruct (Hquiet o _ _ _ Hupd) as (Hrec & Hclock & Htick).
      intros [= <- <-]. repeat split; assumption.
  - intros [= <- <-]. repeat split.
Qed.

Lemma live_called_with_self (qualname : string) :
  live.called_text qualname ("(" ++ live.repr_store ++ ",)") "{}"
  = qualname ++ "() called with : (" ++ live.repr_store ++ ",) - {}".
Proof. unfold live.called_text. now rewrite !append_assoc. Qed.

Lemma live_called_with_self_and_flag (qualname : string) b :
  live.called_text qualname ("(" ++ live.repr_store ++ ", " ++ str b ++ ")") "{}"
  = qualname ++ "() called with : (" ++ live.repr_store ++ ", " ++ str b ++ ") - {}".
Proof. unfold live.called_text. now rewrite !append_assoc. Qed.

Lemma live_notify_observers_log fuel w :
  (forall o, In o (_observers (STORE (heap w))) -> keeps_off_the_store update o) ->
  (forall o, keeps_quiet update o) ->
  List.length (_observers (STORE (heap w))) < fuel ->
  exists r w',
    live.__call__ (live._notify_observers update fuel) self no_kwargs w = Some (r, w')
    /\ clock w' = clock w
    /\ match r with
       | Returned _ =>
           ticks w' = 2 + ticks w
           /\ records w'
              = (records w
                 ++ model_records
                      [("DataStore._notify_observers() called with : (" ++ live.repr_store
                          ++ ",) - {}")%string;
                       ("DataStore._notify_observers() returned None in "
                          ++ format_0_3f ((clock w (S (ticks w)) - clock w (ticks w)) * 1000)%float
                          ++ " ms")%string])%list
       | Raised _ =>
           ticks w' = 1 + ticks w
           /\ records w'
              = (records w
                 ++ model_records
                      [("DataStore._notify_observers() called with : (" ++ live.repr_store
                          ++ ",) - {}")%string])%list
       end.
Proof.
  intros Hoff Hquiet Hfuel.
  unfold live._notify_observers. cbn [live.log live.__call__].
  erewrite live_wrapped_unfold by reflexivity. cbn [live.__call__].
  set (func := {| live.__qualname__ := "DataStore._notify_observers" |}).
  set (w0 := live.world_at_call func _ _ w).
  destruct (live_for_observer_in_spec update fuel 0 w0) as (r & w1 & Hrun & _);
    [exact Hoff | change (heap w0) with (heap w); lia |].
  destruct (live_for_observer_in_quiet Hquiet _ _ _ _ _ Hrun) as (Hrec & Hclock & Htick).
  assert (Hrec0 : records w0
                  = (records w ++ model_records
                       [("DataStore._notify_observers() called with : (" ++ live.repr_store
                           ++ ",) - {}")%string])%list).
  { subst w0 func. unfold live.world_at_call, code_utilities.bind, logger_debug, time.
    cbn [snd records live.__module__ live.__qualname__ model_records map].
    now rewrite live_called_with_self. }
  change (ticks w0) with (S (ticks w)) in *.
  change (clock w0) with (clock w) in *.
  rewrite Hrun. destruct r as [[] | e].
  - eexists _, _. split; [reflexivity |].
    unfold live.world_at_return, code_utilities.bind, logger_debug, time.
    cbn [snd fst records clock ticks].
    split; [exact Hclock |]. split; [now rewrite Htick |].
    rewrite Hrec, Hrec0, Hclock, Htick, <- app_assoc. reflexivity.
  - eexists _, _. split; [reflexivity |].
    split; [exact Hclock |]. split; [exact Htick | now rewrite Hrec].
Qed.
(** X2.  What a flag assignment logs itself and how often it reads the
    clock, when the updates of the observers keep off the store, write no log
    record and do not read the clock.  When it returns it has added four
    records to the log of [als.model], all at DEBUG level: its own "called"
    record, that of [_notify_observers], and the two "returned" records in
    the opposite order, each with the time between the clock readings around
    its call; and it has read the clock four times.  When an update raises it
    has added the two "called" records only and read the clock twice. *)
Theorem flag_assignment_log_records f fuel w :
  (forall o, In o (_observers (STORE (heap w))) -> keeps_off_the_store update o) ->
  (forall o, keeps_quiet update o) ->
  List.length (_observers (STORE (heap w))) < fuel ->
  exists r w',
    live_flag_set update fuel f w = Some (r, w')
    /\ clock w' = clock w
    /\ match r with
       | Returned _ =>
           ticks w' = 4 + ticks w
           /\ records w'
              = (records w
                 ++ model_records
                      (live_messages_before_pass f
                       ++ messages_after_pass f (clock w (ticks w)) (clock w (1 + ticks w))
                            (clock w (2 + ticks w)) (clock w (3 + ticks w))))%list
       | Raised _ =>
           ticks w' = 2 + ticks w
           /\ records w' = (records w ++ model_records (live_messages_before_pass f))%list
       end.
Proof.
  intros Hoff Hquiet Hfuel.
  destruct f as [b | b]; cbn [live_flag_set];
    [unfold live.set_scan_in_progress, live.scan_in_progress_fset
    | unfold live.set_web_server_is_running, live.web_server_is_running_fset];
    cbn [live.log live.__call__]; erewrite live_wrapped_unfold by reflexivity;
    cbn [live.__call__];
    match goal with |- context [live.world_at_call ?func ?sa ?sk w] =>
      set (w0 := live.world_at_call func sa sk w);
      assert (Htick0 : ticks w0 = S (ticks w)) by reflexivity;
      assert (Hclock0 : clock w0 = clock w) by reflexivity;
      pose proof (eq_refl (records w0)) as Hrec0;
      unfold w0 in Hrec0 at 2;
      unfold live.world_at_call, code_utilities.bind, logger_debug, time in Hrec0;
      cbn [snd records live.__module__ live.__qualname__] in Hrec0;
      change sa with ("(" ++ live.repr_store ++ ", " ++ str b ++ ")") in Hrec0;
      rewrite live_called_with_self_and_flag in Hrec0
    end;
    unfold live.bind at 1; unfold live.update_store, live.step; cbn [fst snd];
    match goal with
    | |- context [live.__call__ (live._notify_observers update fuel) self no_kwargs ?w1] =>
        destruct (live_notify_observers_log fuel w1 Hoff Hquiet Hfuel)
          as (r & w2 & Hrun & Hclock & Hlog);
        cbn [records clock ticks] in Hclock, Hlog;
        rewrite Hrun; exists r; destruct r as [[] | e];
        destruct Hlog as (Htick2 & Hrec2);
        (eexists; split; [reflexivity |]);
        unfold live.world_at_return, code_utilities.bind, logger_debug, time;
        cbn [snd fst records clock ticks];
        rewrite ?Hrec2, ?Hrec0, ?Hclock, ?Hclock0, ?Htick2, ?Htick0;
        (split; [reflexivity |]); (split; [reflexivity |]);
        unfold model_records, live_messages_before_pass, messages_after_pass;
        cbn [map app flag_qualname flag_value]; rewrite <- !app_assoc; reflexivity
    end.
Qed.
End LiveStoreMore.

(** ** More of the data store, on observers that call back *)

Section LiveStoreMoreExamples.
Import live callers.

Lemma rereads_never_raises (o : nat) : never_raises rereads o.
Proof. intros w r w' Hrun. cbv in Hrun. now injection Hrun as <- _. Qed.

Lemma notes_only_keeps_off_the_store (o : nat) : keeps_off_the_store notes_only o.
Proof. intros w. eexists _, _. split; [reflexivity |]. split; reflexivity. Qed.

Lemma notes_only_keeps_quiet (o : nat) : keeps_quiet notes_only o.
Proof. intros w r w' Hrun. cbv in Hrun. injection Hrun as _ <-. repeat split. Qed.

(** Two observers that only note the call: four records, four clock
    readings. *)
Lemma flag_assignment_log_records_witness :
  (forall o, In o (_observers (STORE (heap (boot [1; 2])))) ->
             keeps_off_the_store notes_only o)
  /\ (forall o, keeps_quiet notes_only o)
  /\ List.length (_observers (STORE (heap (boot [1; 2])))) < 3
  /\ exists w',
       live_flag_set notes_only 3 (SetScanInProgress true) (boot [1; 2])
       = Some (Returned tt, w')
       /\ ticks w' = 4
       /\ List.length (records w') = 4.
Proof.
  assert (Hoff : forall o, In o (_observers (STORE (heap (boot [1; 2])))) ->
                           keeps_off_the_store notes_only o)
    by (intros o _; apply notes_only_keeps_off_the_store).
  assert (Hfuel : List.length (_observers (STORE (heap (boot [1; 2])))) < 3) by (cbn; lia).
  split; [exact Hoff |]. split; [exact notes_only_keeps_quiet |]. split; [exact Hfuel |].
  destruct (flag_assignment_log_records notes_only (SetScanInProgress true) 3 (boot [1; 2])
              Hoff notes_only_keeps_quiet Hfuel) as (r & w' & Hrun & _ & Hlog).
  assert (Hreturned : exists w0,
             live_flag_set notes_only 3 (SetScanInProgress true) (boot [1; 2])
             = Some (Returned tt, w0))
    by (eexists; vm_compute; reflexivity).
  destruct Hreturned as (w0 & Hw0). rewrite Hw0 in Hrun. injection Hrun as <- <-.
  destruct Hlog as (Hticks & Hrecords).
  exists w0. split; [exact Hw0 |]. split; [exact Hticks |]. now rewrite Hrecords.
Defined.

(** Observers that read the flag back through the logged getter add two
    records and two clock readings each. *)
Example a_pass_over_observers_that_reread :
  exists w',
    live.set_scan_in_progress rereads 4 true (boot [2; 7; 3]) = Some (Returned tt, w')
    /\ ticks w' = 10 /\ List.length (records w') = 10.
Proof. eexists. split; [vm_compute; reflexivity |]. split; reflexivity. Qed.

(** A pass over a list that grows at every step does not end. *)
Example a_pass_over_a_growing_list :
  live.set_scan_in_progress misbehaves 50 true (boot [7]) = None.
Proof. vm_compute. reflexivity. Qed.

(** A run that registers, fails to remove, assigns and reads. *)
Lemma the_store_after_a_run_witness :
  (forall o, In o (_observers (STORE (heap (boot [1; 2])))
                   ++ added [AddObserver 0; RemoveObserver 5;
                             Assign (SetScanInProgress true); ReadScanInProgress;
                             RemoveObserver 1; AddObserver 1]) ->
             keeps_off_the_store rereads o)
  /\ List.length (_observers (STORE (heap (boot [1; 2]))))
     + List.length (added [AddObserver 0; RemoveObserver 5;
                           Assign (SetScanInProgress true); ReadScanInProgress;
                           RemoveObserver 1; AddObserver 1]) < 5
  /\ exists w',
       live_store_ops rereads 5
         [AddObserver 0; RemoveObserver 5; Assign (SetScanInProgress true);
          ReadScanInProgress; RemoveObserver 1; AddObserver 1] (boot [1; 2]) = Some w'
       /\ STORE (heap w')
          = {| _observers := [2; 0; 1]; _scan_in_progress := true;
               _web_server_is_running := false |}.
Proof.
  split; [intros o _; apply rereads_keeps_off_the_store |]. split; [cbn; lia |].
  destruct (proj1 (the_store_after_a_run rereads
                     [AddObserver 0; RemoveObserver 5; Assign (SetScanInProgress true);
                      ReadScanInProgress; RemoveObserver 1; AddObserver 1] 5 (boot [1; 2])
                     (fun o _ => rereads_keeps_off_the_store o) ltac:(cbn; lia)))
    as (w' & Hrun & Hstore).
  exists w'. split; [exact Hrun |]. rewrite Hstore. reflexivity.
Defined.

(** Two observers, three assignments: six updates, in list order each time. *)
Lemma flag_assignments_tell_the_list_each_time_witness :
  (forall o, In o (_observers (STORE (heap (boot [1; 2])))) ->
             keeps_off_the_store rereads o /\ never_raises rereads o)
  /\ List.length (_observers (STORE (heap (boot [1; 2])))) < 3
  /\ exists w',
       live_store_ops rereads 3
         (map Assign [SetScanInProgress true; SetWebServerIsRunning true;
                      SetScanInProgress true]) (boot [1; 2]) = Some w'
       /\ notified_since (boot [1; 2]) w' = [1; 2; 1; 2; 1; 2].
Proof.
  assert (Hgood : forall o, In o (_observers (STORE (heap (boot [1; 2])))) ->
                            keeps_off_the_store rereads o /\ never_raises rereads o)
    by (intros o _; split; [apply rereads_keeps_off_the_store | apply rereads_never_raises]).
  assert (Hfuel : List.length (_observers (STORE (heap (boot [1; 2])))) < 3) by (cbn; lia).
  split; [exact Hgood |]. split; [exact Hfuel |].
  destruct (flag_assignments_tell_the_list_each_time rereads
              [SetScanInProgress true; SetWebServerIsRunning true; SetScanInProgress true]
              3 (boot [1; 2]) Hgood Hfuel) as (w' & Hrun & _ & Htold).
  exists w'. split; [exact Hrun | exact Htold].
Defined.

(** Observer 1 has two entries: with one removed it is still told, once. *)
Lemma a_removal_takes_one_notification_away_witness :
  exists w1 w2,
    live.remove_observer 1 (boot [1; 1; 2]) = Some (Returned tt, w1)
    /\ (forall o, In o (_observers (STORE (heap w1))) -> keeps_off_the_store rereads o)
    /\ List.length (_observers (STORE (heap w1))) < 3
    /\ live_flag_set rereads 3 (SetScanInProgress true) w1 = Some (Returned tt, w2)
    /\ count_occ live.observer_eq_dec (notified_since w1 w2) 1 = 1.
Proof.
  assert (Hremoved : exists w1,
             live.remove_observer 1 (boot [1; 1; 2]) = Some (Returned tt, w1)
             /\ _observers (STORE (heap w1)) = [1; 2])
    by (eexists; split; [vm_compute; reflexivity | reflexivity]).
  destruct Hremoved as (w1 & Hw1 & Hobs).
  assert (Hoff : forall o, In o (_observers (STORE (heap w1))) ->
                           keeps_off_the_store rereads o)
    by (intros o _; apply rereads_keeps_off_the_store).
  assert (Hfuel : List.length (_observers (STORE (heap w1))) < 3)
    by (rewrite Hobs; cbn; lia).
  destruct (live_flag_set_spec rereads 3 (SetScanInProgress true) w1 Hoff Hfuel)
    as (r & w2 & Hset & _ & told & _ & Hends).
  assert (Hr : r = Returned tt).
  { destruct r as [[] | e]; [reflexivity |].
    destruct Hends as (_ & o & _ & wa & wb & _ & _ & Hraised).
    apply rereads_never_raises in Hraised. discriminate. }
  subst r.
  exists w1, w2. split; [exact Hw1 |]. split; [exact Hoff |]. split; [exact Hfuel |].
  split; [exact Hset |].
  exact (a_removal_takes_one_notification_away rereads 1 1 (SetScanInProgress true) 3
           (boot [1; 1; 2]) w1 w2 Hw1 Hoff Hfuel Hset).
Defined.
End LiveStoreMoreExamples.

(** ** The two embeddings side by side *)

Section KeepingToThemselvesProperties.
Context {Observer Env : Type} {collaborators : Collaborators Observer Env}.
Implicit Types (w : World (Heap Observer Env)) (o : Observer) (b : bool) (fuel i : nat).

(** The wrapper of [live] around a callable whose arguments and result
    print is the wrapper of [code_utilities]. *)
Lemma live_wrapped_is_wrapped {H Args Kwargs Val : Type}
      {sa : PyStr Args} {sk : PyStr Kwargs} {sv : PyStr Val}
      {la : live.HasStr Args} {lk : live.HasStr Kwargs} {lv : live.HasStr Val}
      (g : live.PyFunction H Args Kwargs Val) (func : PyFunction H Args Kwargs Val)
      (args : Args) (kwargs : Kwargs) (w : World H) :
  live.__qualname__ g = __qualname__ func ->
  live.__module__ g = __module__ func ->
  live.__str__ args = Returned (str args) ->
  live.__str__ kwargs = Returned (str kwargs) ->
  (forall v, live.__str__ v = Returned (str v)) ->
  live.__call__ g args kwargs (at_call func args kwargs w)
  = Some (__call__ func args kwargs (at_call func args kwargs w)) ->
  live.wrapped g args kwargs w = Some (wrapped func args kwargs w).
Proof.
  intros Hname Hmodule Hargs Hkwargs Hval Hcall.
  rewrite (live_wrapped_unfold g args kwargs w _ _ Hargs Hkwargs), wrapped_unfold.
  assert (Hworld : live.world_at_call g (str args) (str kwargs) w = at_call func args kwargs w).
  { unfold live.world_at_call, at_call, live.called_text, called_message.
    now rewrite Hname, Hmodule. }
  rewrite Hworld, Hcall.
  destruct (__call__ func args kwargs _) as [[result | e] w']; [| reflexivity].
  rewrite Hval. unfold live.world_at_return, at_return, live.returned_text, returned_message.
  now rewrite Hname, Hmodule.
Qed.

(** The pass by position over a list that stays as it is, is the pass over
    the list. *)
Lemma live_for_observer_in_is_for_observer_in : forall fuel i w,
  List.length (_observers (STORE (heap w))) - i < fuel ->
  live.for_observer_in acts_on_its_surroundings fuel i w
  = Some (for_observer_in (skipn i (_observers (STORE (heap w)))) w).
Proof.
  induction fuel as [| fuel IH]; intros i w Hfuel; [lia |].
  cbn [live.for_observer_in].
  destruct (nth_error (_observers (STORE (heap w))) i) as [o |] eqn:Hnth.
  - rewrite (skipn_nth_error_Some _ _ _ Hnth). cbn [for_observer_in].
    unfold live.bind, bind, live.call_update, call_update, acts_on_its_surroundings.
    cbn [heap STORE surroundings notified records clock ticks].
    destruct (update_according_to_app_state o _ _) as [[[] | e] env']; [| reflexivity].
    assert (Hlt : i < List.length (_observers (STORE (heap w))))
      by (apply nth_error_Some; congruence).
    rewrite IH by (cbn; lia). reflexivity.
  - now rewrite (skipn_nth_error_None _ _ Hnth).
Qed.

(** For observers that print and keep to their surroundings, and with fuel
    for one pass, every operation of the store in [live] is the operation of
    [model]: what is proved of the one holds of the other. *)
Theorem live_is_model_for_observers_that_keep_to_themselves fuel b o w :
  List.length (_observers (STORE (heap w))) < fuel ->
  @live.set_scan_in_progress Observer Env printable acts_on_its_surroundings fuel b w
  = Some (set_scan_in_progress b w)
  /\ @live.set_web_server_is_running Observer Env printable acts_on_its_surroundings fuel b w
     = Some (set_web_server_is_running b w)
  /\ @live.get_scan_in_progress Observer Env printable w = Some (get_scan_in_progress w)
  /\ @live.get_web_server_is_running Observer Env printable w
     = Some (get_web_server_is_running w)
  /\ @live.add_observer Observer Env printable o w = Some (add_observer o w)
  /\ @live.remove_observer Observer Env printable o w = Some (remove_observer o w).
Proof.
  intros Hfuel.
  assert (Hnotify : forall w0,
             List.length (_observers (STORE (heap w0))) < fuel ->
             live.__call__ (@live._notify_observers Observer Env printable
                              acts_on_its_surroundings fuel) self no_kwargs w0
             = Some (__call__ _notify_observers self no_kwargs w0)).
  { intros w0 Hfuel0. unfold live._notify_observers, _notify_observers.
    cbn [live.log live.__call__ log __call__].
    apply live_wrapped_is_wrapped; try reflexivity. cbn [live.__call__ __call__].
    rewrite live_for_observer_in_is_for_observer_in by (cbn; lia). reflexivity. }
  split; [| split; [| split; [| split; [| split]]]].
  - unfold live.set_scan_in_progress, live.scan_in_progress_fset,
      set_scan_in_progress, scan_in_progress_fset.
    cbn [live.log live.__call__ log __call__].
    apply live_wrapped_is_wrapped; try reflexivity. cbn [live.__call__ __call__].
    unfold live.bind at 1, bind at 1. unfold live.update_store, live.step, update_store, bind,
      get_heap, put_heap. cbn [fst snd heap].
    now rewrite Hnotify.
  - unfold live.set_web_server_is_running, live.web_server_is_running_fset,
      set_web_server_is_running, web_server_is_running_fset.
    cbn [live.log live.__call__ log __call__].
    apply live_wrapped_is_wrapped; try reflexivity. cbn [live.__call__ __call__].
    unfold live.bind at 1, bind at 1. unfold live.update_store, live.step, update_store, bind,
      get_heap, put_heap. cbn [fst snd heap].
    now rewrite Hnotify.
  - unfold live.get_scan_in_progress, live.scan_in_progress_fget,
      get_scan_in_progress, scan_in_progress_fget.
    cbn [live.log live.__call__ log __call__].
    apply live_wrapped_is_wrapped; reflexivity.
  - unfold live.get_web_server_is_running, live.web_server_is_running_fget,
      get_web_server_is_running, web_server_is_running_fget.
    cbn [live.log live.__call__ log __call__].
    apply live_wrapped_is_wrapped; reflexivity.
  - unfold live.add_observer, live.add_observer_def, add_observer, add_observer_def.
    cbn [live.log live.__call__ log __call__].
    apply live_wrapped_is_wrapped; reflexivity.
  - unfold live.remove_observer, live.remove_observer_def, remove_observer, remove_observer_def.
    cbn [live.log live.__call__ log __call__].
    apply live_wrapped_is_wrapped; try reflexivity. cbn [live.__call__ __call__].
    unfold live.bind, live.read_store, bind, get_heap.
    assert (Hsame : forall l, @live.list_remove Observer printable o l = list_remove o l).
    { induction l as [| y l IHl]; cbn; [reflexivity |]. now rewrite IHl. }
    cbn [snd]. rewrite Hsame.
    change (heap (at_call _ _ _ w)) with (heap w).
    destruct (list_remove o (_observers (STORE (heap w)))); reflexivity.
Qed.
End KeepingToThemselvesProperties.
